(** * StormworksDatalink: the telemetry store, its sweeper and its handlers

    A shallow embedding of [main.go], [error_codes.go] and [vessel_types.go].
    The process-wide variables of [main.go] are the fields of [State]; every
    critical section (a write, a listing, an iteration of the sweeper loop)
    is a function on [State], and the handler of [setVesselTelemetry], which
    has two, takes what is served between them as an argument.
    What the Go runtime decides (the clock, the order in which [range] visits a
    map) is an explicit argument, and what the Go standard library computes
    ([strconv.ParseInt], [fmt.Sscanf]) is a field of the class [GoLib]. *)

From Stdlib Require Import ZArith PrimFloat Lia.
From stdpp Require Import gmap strings list fin_maps.

Local Open Scope string_scope.
Local Open Scope Z_scope.

(** ** Machine integers *)

(** Go's [int64]: a [Z] between [min_int64] and [max_int64]; arithmetic wraps. *)
Definition min_int64 : Z := - 2 ^ 63.
Definition max_int64 : Z := 2 ^ 63 - 1.

Definition int64_range (n : Z) : Prop := min_int64 <= n <= max_int64.

Definition wrap64 (n : Z) : Z := (n + 2 ^ 63) mod 2 ^ 64 - 2 ^ 63.

Definition sub64 (a b : Z) : Z := wrap64 (a - b).

(** Go's [float64] and its zero value. *)
Abbreviation float64 := PrimFloat.float (only parsing).

Definition float64_zero : float64 := 0%float.

(** Go's [a != b] on [float64]: true as soon as one side is a NaN. *)
Definition float64_ne (a b : float64) : bool := negb (PrimFloat.eqb a b).

(** ** error_codes.go *)

(** [type ErrorCode int32] *)
Record ErrorCode : Set := MkErrorCode { ErrorCode_int32 : Z }.

Definition ErrorSuccess : ErrorCode := MkErrorCode (-1).
Definition ErrorWrongID : ErrorCode := MkErrorCode 1201.
Definition ErrorWrongVesselType : ErrorCode := MkErrorCode 1202.
Definition ErrorUnauthorized : ErrorCode := MkErrorCode 12401.
Definition ErrorNotFound : ErrorCode := MkErrorCode 12404.
Definition ErrorServerError : ErrorCode := MkErrorCode 12500.

Definition ErrorCode_ToInt32 (e : ErrorCode) : Z := ErrorCode_int32 e.

(** ** vessel_types.go *)

(** [type VesselType int32]: no constructor other than the conversion from
    the underlying integer, so every [int32] is a [VesselType]. *)
Record VesselType : Set := MkVesselType { VesselType_int32 : Z }.

Definition Installation : VesselType := MkVesselType 1.
Definition Vessel : VesselType := MkVesselType 2.
Definition Missile : VesselType := MkVesselType 3.
Definition Air : VesselType := MkVesselType 4.

Definition VesselType_ToInt32 (e : VesselType) : Z := VesselType_int32 e.

Definition VesselTypeFromInt32 (code : Z) : VesselType := MkVesselType code.

(** ** The Go standard library, as far as [main.go] calls it *)

(** The three scanning calls of [main.go].  Each returns [Some v] when the
    call stores [v] in its destination without error, and [None] when it
    reports an error.
    - [ParseInt s] is [strconv.ParseInt(s, 0, 64)];
    - [Sscanf_f s] is [fmt.Sscanf(s, "%f", &f)] for [f] a [float64]: on an
      error [f] is left as it was;
    - [Sscanf_d s] is [fmt.Sscanf(s, "%d", &i)] for [i] an [int32]: on an
      error [i] is left as it was. *)
Class GoLib : Type := {
  ParseInt : string → option Z;
  Sscanf_f : string → option float64;
  Sscanf_d : string → option Z
}.

(** [url.Values] is [map[string][]string]; [Get] returns the first value of
    the key, or the empty string when there is none. *)
Abbreviation Values := (gmap string (list string)) (only parsing).

Definition Get (v : Values) (key : string) : string :=
  match v !! key with
  | Some (x :: _) => x
  | _ => ""
  end.

(** ** main.go: types and constants *)

(** [time.Duration] counts nanoseconds. *)
Definition Microsecond : Z := 1000.
Definition Millisecond : Z := 1000 * Microsecond.
Definition Second : Z := 1000 * Millisecond.

Definition cleanupInterval : Z := 2500 * Microsecond.
Definition cleanupThreshold : Z := 5 * Second.

(** [uuid.UUID] is an array of sixteen bytes. *)
Abbreviation UUID := (list Byte.byte) (only parsing).

Record Client : Type := MkClient { Client_UUID : UUID }.

Record VesselTelemetry : Type := MkVesselTelemetry {
  ID : Z;
  Name : string;
  Callsign : string;
  X : float64;
  Y : float64;
  Z_ : float64;
  ABSSpeed : float64;
  Type_ : VesselType;
  Direction : float64;
  Timestamp : Z;
  TgtX : float64;
  TgtY : float64;
  TgtZ : float64;
  HasTgt : bool
}.

(** The map [vessels] and what [range vessels] may produce: the runtime picks
    the order, so an iteration is any function [range] from the map to a
    listing of its entries; [RangeOrder] says that it lists each entry once. *)
Abbreviation Vessels := (gmap string VesselTelemetry) (only parsing).
Abbreviation Range := (gmap string VesselTelemetry → list (string * VesselTelemetry))
  (only parsing).

Definition RangeOrder (range : Range) : Prop :=
  ∀ m : Vessels, range m ≡ₚ map_to_list m.

(** The package-level variables. [vesselsMu] serialises the critical
    sections: a critical section is a function on [State]. *)
Record State : Type := MkState {
  clientInfo : Client;
  vessels : Vessels;
  cleanupEnabled : bool
}.

Definition set_vessels (s : State) (m : Vessels) : State :=
  {| clientInfo := clientInfo s; vessels := m; cleanupEnabled := cleanupEnabled s |}.

(** The state in which [main] starts the sweeper and the listener: the
    initialisers of the [var] block, then [clientInfo.UUID = uuid.New()]. *)
Definition main_init (u : UUID) : State :=
  {| clientInfo := MkClient u; vessels := ∅; cleanupEnabled := true |}.

(** ** JSON responses *)

(** The values the handlers pass to [json.Encoder.Encode]. *)
Inductive JSON : Type :=
  | JInt (n : Z)
  | JUUID (u : UUID)
  | JVessels (l : list VesselTelemetry).

Abbreviation Object := (gmap string JSON) (only parsing).

(** [encoding/json] refuses a [float64] that is a NaN or an infinity
    ([UnsupportedValueError]); every other value of the types above is
    encoded. *)
Definition VesselTelemetry_marshalable (v : VesselTelemetry) : bool :=
  is_finite (X v) && is_finite (Y v) && is_finite (Z_ v) &&
  is_finite (ABSSpeed v) && is_finite (Direction v) &&
  is_finite (TgtX v) && is_finite (TgtY v) && is_finite (TgtZ v).

Definition JSON_marshalable (j : JSON) : bool :=
  match j with
  | JVessels l => forallb VesselTelemetry_marshalable l
  | _ => true
  end.

(** [Encode] buffers the whole value before it writes: on an error nothing
    reaches the response.  The handlers drop the error, so a body is either
    the whole object or nothing. *)
Definition Encode (v : Object) : option Object :=
  if decide (map_Forall (λ _ j, Is_true (JSON_marshalable j)) v)
  then Some v
  else None.

Record Response : Type := MkResponse {
  ContentType : string;
  Body : option Object
}.

Definition respond (v : Object) : Response :=
  {| ContentType := "application/json"; Body := Encode v |}.

(** What the sweeper prints. *)
Inductive LogLine : Type :=
  | LogRemoved (removedCount : Z)
  | LogRemaining (len : Z).

(** ** main.go: functions *)

Section Program.
Context {lib : GoLib}.

Definition parseFloat (s : string) : float64 :=
  let f := float64_zero in
  match Sscanf_f s with
  | Some v => v
  | None => f
  end.

Definition parseInt32 (s : string) : Z :=
  let i := 0 in
  match Sscanf_d s with
  | Some v => v
  | None => i
  end.

(** Lines 225 to 229 of [setVesselTelemetry]. *)
Definition vehIdInt (vehId : string) : Z :=
  match ParseInt vehId with
  | Some n => n
  | None => -1
  end.

(** Lines 231 to 249: the record built from the query, stamped with the
    clock reading [now]. *)
Definition telemetry (params : Values) (now : Z) : VesselTelemetry :=
  let tgtXf := parseFloat (Get params "tgt_x") in
  let tgtYf := parseFloat (Get params "tgt_y") in
  let hasTgt := float64_ne tgtXf float64_zero && float64_ne tgtYf float64_zero in
  {| ID := vehIdInt (Get params "veh_id");
     Name := Get params "veh_name";
     Callsign := Get params "callsign";
     X := parseFloat (Get params "veh_x");
     Y := parseFloat (Get params "veh_y");
     Z_ := parseFloat (Get params "veh_z");
     ABSSpeed := parseFloat (Get params "veh_abs_spd");
     Type_ := VesselTypeFromInt32 (parseInt32 (Get params "type"));
     Direction := parseFloat (Get params "veh_dir");
     Timestamp := now;
     TgtX := tgtXf;
     TgtY := tgtYf;
     TgtZ := parseFloat (Get params "tgt_z");
     HasTgt := hasTgt |}.

(** Lines 258 to 270 and 276 to 288: the listing of the map and the object
    built from it. *)
Definition vesselsList (range : Range) (m : Vessels) : list VesselTelemetry :=
  (range m).*2.

Definition snapshot (range : Range) (m : Vessels) (now : Z) : Object :=
  let l := vesselsList range m in
  <["errorcode" := JInt (ErrorCode_ToInt32 ErrorSuccess)]>
    (<["vessels" := JVessels l]>
       (<["count" := JInt (Z.of_nat (length l))]>
          (<["timestamp" := JInt now]> ∅))).

Definition errorObject (e : ErrorCode) : Object :=
  {[ "errorcode" := JInt (ErrorCode_ToInt32 e) ]}.

(** Lines 196 to 253 of [setVesselTelemetry], as far as the state goes: the
    two guards, then the write under [vesselsMu.Lock].  [stamp] is the clock
    reading of line 244. *)
Definition setVesselTelemetry_write (params : Values) (stamp : Z) (s : State) : State :=
  let vehId := Get params "veh_id" in
  let vesselType := Get params "type" in
  if decide (vehId = "") then s
  else if decide (vesselType = "") then s
  else set_vessels s (<[vehId := telemetry params stamp]> (vessels s)).

Definition getTelemetryData (now : Z) (range : Range) (s : State) : State * Response :=
  (s, respond (snapshot range (vessels s) now)).

Definition infoGetHandler (s : State) : State * Response :=
  (s, respond {[ "UUID" := JUUID (Client_UUID (clientInfo s)) ]}).

(** The body of the [range] loop of [cleanupOldVessels] on one entry; the
    loop state is the map and [removedCount]. *)
Definition sweep_entry (threshold : Z) (acc : Vessels * Z)
    (entry : string * VesselTelemetry) : Vessels * Z :=
  let '(id, vessel) := entry in
  let '(m, removedCount) := acc in
  if Timestamp vessel <? threshold
  then (delete id m, removedCount + 1)
  else (m, removedCount).

(** Lines 121 to 130 with the threshold in milliseconds as an argument. *)
Definition sweep (now thresholdMillis : Z) (range : Range) (m : Vessels) : Vessels * Z :=
  let threshold := sub64 now thresholdMillis in
  foldl (sweep_entry threshold) (m, 0) (range m).

(** One iteration of the [for] loop of [cleanupOldVessels], after the sleep. *)
Definition cleanupOldVessels (now : Z) (range : Range) (s : State) : State * list LogLine :=
  if negb (cleanupEnabled s) then (s, [])
  else
    let '(m, removedCount) :=
      sweep now (Z.quot cleanupThreshold Millisecond) range (vessels s) in
    (set_vessels s m,
     if 0 <? removedCount
     then [LogRemoved removedCount; LogRemaining (Z.of_nat (size m))]
     else []).

End Program.

(** The query parameters that [setVesselTelemetry] passes to [parseFloat],
    each with the field of the record that receives the result. *)
Definition floatParams : list (string * (VesselTelemetry → PrimFloat.float)) :=
  [("veh_x", X); ("veh_y", Y); ("veh_z", Z_); ("veh_abs_spd", ABSSpeed);
   ("veh_dir", Direction); ("tgt_x", TgtX); ("tgt_y", TgtY); ("tgt_z", TgtZ)].

(** ** The running server *)

(** What the server reacts to after [main] has started it: a request on one
    of the three routes, or the sweeper waking up.  A request carries the
    clock readings and the iteration order that the runtime supplies while it
    is served.  An event changes the state in one critical section: for a
    request to [setVesselTelemetry] that is the write of lines 251 to 253. *)
Inductive Event : Type :=
  | InfoRequest
  | SetRequest (params : gmap string (list string)) (stamp now : Z)
      (range : gmap string VesselTelemetry → list (string * VesselTelemetry))
  | GetRequest (now : Z)
      (range : gmap string VesselTelemetry → list (string * VesselTelemetry))
  | SweeperTick (now : Z)
      (range : gmap string VesselTelemetry → list (string * VesselTelemetry)).

Section Server.
Context {lib : GoLib}.

Definition step (s : State) (e : Event) : State :=
  match e with
  | InfoRequest => (infoGetHandler s).1
  | SetRequest params stamp _ _ => setVesselTelemetry_write params stamp s
  | GetRequest now range => (getTelemetryData now range s).1
  | SweeperTick now range => (cleanupOldVessels now range s).1
  end.

Definition run (s : State) (events : list Event) : State := foldl step s events.

(** The states the server can be in. *)
Inductive reachable : State → Prop :=
  | reachable_init (u : list Byte.byte) : reachable (main_init u)
  | reachable_step (s : State) (e : Event) : reachable s → reachable (step s e).

(** [setVesselTelemetry] as a whole.  The handler releases [vesselsMu] at
    line 253 and takes the read lock at line 258; [gap] is what the other
    goroutines get through in between, requests and iterations of the
    sweeper loop, and the listing of lines 258 to 263 sees the store after
    them.  The first component is the state as the write of this handler
    leaves it.  [stamp] is the clock reading of line 244, [now] the one of
    line 269. *)
Definition setVesselTelemetry (params : gmap string (list string)) (stamp now : Z)
    (range : gmap string VesselTelemetry → list (string * VesselTelemetry))
    (gap : list Event) (s : State) : State * Response :=
  let vehId := Get params "veh_id" in
  let vesselType := Get params "type" in
  if decide (vehId = "") then (s, respond (errorObject ErrorWrongID))
  else if decide (vesselType = "") then (s, respond (errorObject ErrorWrongVesselType))
  else
    let s' := set_vessels s (<[vehId := telemetry params stamp]> (vessels s)) in
    (s', respond (snapshot range (vessels (run s' gap)) now)).

End Server.

(** ** Traces *)

(** The key that a request writes: the [veh_id] of a request to
    [setVesselTelemetry] that passes both guards. *)
Definition upsertKey (e : Event) : option string :=
  match e with
  | SetRequest params _ _ _ =>
      if decide (Get params "veh_id" = "") then None
      else if decide (Get params "type" = "") then None
      else Some (Get params "veh_id")
  | _ => None
  end.

Definition isSweeperTick (e : Event) : bool :=
  match e with
  | SweeperTick _ _ => true
  | _ => false
  end.

(** The events that reach a critical section that writes. *)
Definition writes (e : Event) : bool :=
  isSweeperTick e || bool_decide (is_Some (upsertKey e)).

Section Records.
Context {lib : GoLib}.

(** What [setVesselTelemetry] establishes for the record it writes under
    the key [k]. *)
Definition wellKeyed (k : string) (v : VesselTelemetry) : Prop :=
  k ≠ "" ∧
  ID v = vehIdInt k ∧
  HasTgt v = float64_ne (TgtX v) float64_zero && float64_ne (TgtY v) float64_zero.

End Records.

(** ** Concrete inputs *)

(** A finite table of library results, enough to run the handlers on the
    requests used below; every other string is reported as an error. *)
Definition sampleInts : gmap string Z :=
  list_to_map [("42", 42); ("16", 16); ("0x10", 16); ("1", 1); ("7", 7)].

Definition sampleFloats : gmap string float64 :=
  list_to_map [("0", 0%float); ("3", 3%float); ("5", 5%float);
               ("1.5", 1.5%float); ("2.5", 2.5%float); ("10", 10%float);
               ("90", 90%float); ("NaN", nan);
               ("1.5abc", 1.5%float); ("nanotech", nan)].

Definition sampleCodes : gmap string Z :=
  list_to_map [("2", 2); ("9", 9)].

Definition sampleLib : GoLib :=
  {| ParseInt s := sampleInts !! s;
     Sscanf_f s := sampleFloats !! s;
     Sscanf_d s := sampleCodes !! s |}.

(** The query string [k1=v1&k2=v2&...] as [url.Values]. *)
Definition query (l : list (string * string)) : gmap string (list string) :=
  list_to_map (prod_map id (λ v, [v]) <$> l).

(** [veh_id=42&type=2&tgt_x=...&tgt_y=...] *)
Definition targetQuery (tgt_x tgt_y : string) : gmap string (list string) :=
  query [("veh_id", "42"); ("type", "2"); ("tgt_x", tgt_x); ("tgt_y", tgt_y)].

(** [veh_id=42&type=9&veh_x=notanumber&veh_y=2.5]: no other parameter. *)
Definition malformedQuery : gmap string (list string) :=
  query [("veh_id", "42"); ("type", "9"); ("veh_x", "notanumber"); ("veh_y", "2.5")].

(** [veh_id=...&type=...] *)
Definition idQuery (veh_id type : string) : gmap string (list string) :=
  query [("veh_id", veh_id); ("type", type)].

(** [veh_id=42&veh_x=1.5&veh_y=2.5&veh_z=0&veh_abs_spd=10&veh_dir=90&type=2&tgt_x=0&tgt_y=0] *)
Definition fullQuery : gmap string (list string) :=
  query [("veh_id", "42"); ("veh_x", "1.5"); ("veh_y", "2.5"); ("veh_z", "0");
         ("veh_abs_spd", "10"); ("veh_dir", "90"); ("type", "2");
         ("tgt_x", "0"); ("tgt_y", "0")].

(** [veh_id=1&type=2&veh_x=NaN] *)
Definition nanQuery : gmap string (list string) :=
  query [("veh_id", "1"); ("type", "2"); ("veh_x", "NaN")].

(** A record that differs from the zero value only in its timestamp. *)
Definition stamped (timestamp : Z) : VesselTelemetry :=
  {| ID := 0; Name := ""; Callsign := "";
     X := float64_zero; Y := float64_zero; Z_ := float64_zero;
     ABSSpeed := float64_zero; Type_ := VesselTypeFromInt32 0;
     Direction := float64_zero; Timestamp := timestamp;
     TgtX := float64_zero; TgtY := float64_zero; TgtZ := float64_zero;
     HasTgt := false |}.

(** Three vessels around the threshold of a sweep at [now = 10000] with a
    threshold of [5000] milliseconds. *)
Definition threeVessels : gmap string VesselTelemetry :=
  <["old" := stamped 4999]> (<["edge" := stamped 5000]> (<["fresh" := stamped 5001]> ∅)).

(** An event that cannot take the record under [k], stamped [stamp], out of
    the store or replace it: a request that does not write under [k], or an
    iteration of the sweeper loop whose threshold [now - 5000] (an [int64])
    is not above [stamp]. *)
Definition spares (k : string) (stamp : Z) (e : Event) : Prop :=
  match e with
  | SetRequest _ _ _ _ => upsertKey e ≠ Some k
  | SweeperTick now range => RangeOrder range ∧ int64_range (now - 5000) ∧ now - 5000 <= stamp
  | _ => True
  end.

(** A first event, the events served after it, and a last event. *)
Definition twice (first : Event) (between : list Event) (second : Event) : list Event :=
  first :: between ++ [second].

(** The listing of stdpp backwards: another order that [range] may take. *)
Definition backwards (m : gmap string VesselTelemetry) : list (string * VesselTelemetry) :=
  reverse (map_to_list m).

(** Four events: two accepted requests, a [getVessels] and a refused request. *)
Definition sampleTrace : list Event :=
  [SetRequest (idQuery "abc" "2") 10000 10001 map_to_list;
   GetRequest 10002 backwards;
   SetRequest (idQuery "16" "2") 10003 10004 backwards;
   SetRequest (query [("veh_id", "xyz")]) 10005 10006 map_to_list].

(** * Properties *)

(** ** Machine integers *)

Lemma wrap64_id (n : Z) : int64_range n → wrap64 n = n.
Proof.
  unfold int64_range, min_int64, max_int64, wrap64. intros Hn.
  rewrite Z.mod_small; lia.
Qed.

Lemma sub64_exact (a b : Z) : int64_range (a - b) → sub64 a b = a - b.
Proof. apply wrap64_id. Qed.

(** ** The sweep loop *)

(** The listing that stdpp computes is one of the orders [range] may take. *)
Lemma map_to_list_RangeOrder : RangeOrder map_to_list.
Proof. intros m. reflexivity. Qed.

Lemma backwards_RangeOrder : RangeOrder backwards.
Proof. intros m. unfold backwards. apply reverse_Permutation. Qed.

(** The entries that one pass of the loop deletes. *)
Abbreviation expired threshold :=
  (λ entry : string * VesselTelemetry, Timestamp entry.2 < threshold) (only parsing).

Lemma sweep_loop_lookup (threshold : Z) (l : list (string * VesselTelemetry)) :
  ∀ (m : Vessels) (c : Z) (k : string),
    (foldl (sweep_entry threshold) (m, c) l).1 !! k =
    if decide (k ∈ (filter (expired threshold) l).*1) then None else m !! k.
Proof.
  induction l as [|[id vessel] l IH]; intros m c k; simpl.
  - done.
  - rewrite filter_cons. simpl.
    destruct (Z.ltb_spec (Timestamp vessel) threshold) as [Hlt|Hge].
    + destruct (decide (Timestamp vessel < threshold)) as [_|?]; [|lia].
      rewrite IH, fmap_cons. simpl.
      destruct (decide (k ∈ (filter (expired threshold) l).*1)) as [Hin|Hnin];
        destruct (decide (k ∈ id :: (filter (expired threshold) l).*1)) as [Hin'|Hnin'];
        try done.
      * exfalso. apply Hnin'. by apply elem_of_cons; right.
      * apply elem_of_cons in Hin' as [->|Hin']; [apply lookup_delete_eq|done].
      * apply not_elem_of_cons in Hnin' as [Hne _]. by apply lookup_delete_ne.
    + destruct (decide (Timestamp vessel < threshold)) as [?|_]; [lia|]. by rewrite IH.
Qed.

Lemma sweep_loop_count (threshold : Z) (l : list (string * VesselTelemetry)) :
  ∀ (m : Vessels) (c : Z),
    (foldl (sweep_entry threshold) (m, c) l).2 =
    c + Z.of_nat (length (filter (expired threshold) l)).
Proof.
  induction l as [|[id vessel] l IH]; intros m c; simpl.
  - lia.
  - rewrite filter_cons. simpl.
    destruct (Z.ltb_spec (Timestamp vessel) threshold) as [Hlt|Hge].
    + destruct (decide (Timestamp vessel < threshold)) as [_|?]; [|lia]. rewrite IH. simpl. lia.
    + destruct (decide (Timestamp vessel < threshold)) as [?|_]; [lia|]. by rewrite IH.
Qed.

Lemma expired_keys (threshold : Z) (range : Range) (m : Vessels) (k : string) :
  RangeOrder range →
  k ∈ (filter (expired threshold) (range m)).*1 ↔
  ∃ v, m !! k = Some v ∧ Timestamp v < threshold.
Proof.
  intros Hrange. rewrite list_elem_of_fmap. split.
  - intros [[k' v] [-> Hin]]. apply list_elem_of_filter in Hin as [Hlt Hin].
    rewrite (Hrange m) in Hin. apply elem_of_map_to_list in Hin. eauto.
  - intros [v [Hk Hlt]]. exists (k, v). split; [done|].
    apply list_elem_of_filter. split; [done|].
    rewrite (Hrange m). by apply elem_of_map_to_list.
Qed.

Lemma sweep_map (now T : Z) (range : Range) (m : Vessels) :
  RangeOrder range →
  (sweep now T range m).1 =
  filter (λ entry, sub64 now T <= Timestamp entry.2) m.
Proof.
  intros Hrange. apply map_eq. intros k. unfold sweep.
  rewrite sweep_loop_lookup, map_lookup_filter.
  case_decide as Hk.
  - apply expired_keys in Hk as [v [Hv Hlt]]; [|done].
    rewrite Hv. simpl. by rewrite option_guard_False by lia.
  - destruct (m !! k) as [v|] eqn:Hv; [|done]. simpl.
    rewrite option_guard_True; [done|].
    destruct (Z.le_gt_cases (sub64 now T) (Timestamp v)) as [|Hlt]; [done|].
    exfalso. apply Hk. apply expired_keys; [done|]. exists v. split; [done|lia].
Qed.

Lemma sweep_count (now T : Z) (range : Range) (m : Vessels) :
  RangeOrder range →
  (sweep now T range m).2 =
  Z.of_nat (size (filter (λ entry, Timestamp entry.2 < sub64 now T) m)).
Proof.
  intros Hrange. unfold sweep. rewrite sweep_loop_count.
  rewrite map_filter_alt, map_size_list_to_map.
  - rewrite (Hrange m). lia.
  - eapply NoDup_fmap_fst.
    + intros k v1 v2 H1 H2.
      apply list_elem_of_filter in H1 as [_ H1], H2 as [_ H2].
      apply elem_of_map_to_list in H1, H2. congruence.
    + apply NoDup_filter, NoDup_map_to_list.
Qed.

(** With the flag set, an iteration of the sweeper loop is a sweep with the
    threshold of five seconds; it prints the count and the size that is left
    when the count is not zero. *)
Lemma cleanupOldVessels_enabled (now : Z) (range : Range) (s : State) :
  cleanupEnabled s = true →
  cleanupOldVessels now range s =
  (set_vessels s (sweep now 5000 range (vessels s)).1,
   if 0 <? (sweep now 5000 range (vessels s)).2
   then [LogRemoved (sweep now 5000 range (vessels s)).2;
         LogRemaining (Z.of_nat (size (sweep now 5000 range (vessels s)).1))]
   else []).
Proof.
  intros Hflag. unfold cleanupOldVessels. rewrite Hflag. simpl.
  change (cleanupThreshold `quot` Millisecond) with 5000.
  by destruct (sweep _ _ _ _).
Qed.

(** C1. A sweep at time [now] with threshold [T] (where [now - T] is an
    [int64], so the subtraction of line 122 does not wrap) keeps exactly the
    records with [now - T <= timestamp], that is, it removes exactly those
    with [timestamp < now - T], and [removedCount] is the number of records
    removed.  A record stamped [now - T - 1] is removed; records stamped
    [now - T + 1] or [now - T] stay.  The sweeper loop runs this sweep with
    [T = 5000] and prints [removedCount] when it is not zero. *)
Theorem sweep_removes_expired (now T : Z) (range : Range) (m : Vessels) :
  RangeOrder range →
  int64_range (now - T) →
  (sweep now T range m).1 = filter (λ entry, now - T <= Timestamp entry.2) m ∧
  (sweep now T range m).2 =
    Z.of_nat (size (filter (λ entry, Timestamp entry.2 < now - T) m)) ∧
  (∀ id v, m !! id = Some v → Timestamp v = now - T - 1 →
           (sweep now T range m).1 !! id = None) ∧
  (∀ id v, m !! id = Some v → Timestamp v = now - T + 1 →
           (sweep now T range m).1 !! id = Some v) ∧
  (∀ id v, m !! id = Some v → Timestamp v = now - T →
           (sweep now T range m).1 !! id = Some v) ∧
  (∀ s, T = 5000 → vessels s = m → cleanupEnabled s = true →
        cleanupOldVessels now range s =
        (set_vessels s (sweep now T range m).1,
         if 0 <? (sweep now T range m).2
         then [LogRemoved (sweep now T range m).2;
               LogRemaining (Z.of_nat (size (sweep now T range m).1))]
         else [])).
Proof.
  intros Hrange Hsub.
  split_and!.
  - rewrite sweep_map by done. by rewrite sub64_exact.
  - rewrite sweep_count by done. by rewrite sub64_exact.
  - intros id v Hv Hts. rewrite sweep_map, sub64_exact by done.
    apply map_lookup_filter_None. right.
    intros v' Hv'. simpl. simplify_eq. lia.
  - intros id v Hv Hts. rewrite sweep_map, sub64_exact by done.
    apply map_lookup_filter_Some. simpl. split; [done|lia].
  - intros id v Hv Hts. rewrite sweep_map, sub64_exact by done.
    apply map_lookup_filter_Some. simpl. split; [done|lia].
  - intros s -> <- Hflag. by apply cleanupOldVessels_enabled.
Qed.

Lemma sweep_removes_expired_witness :
  (sweep 10000 5000 map_to_list threeVessels).1 =
    filter (λ entry, 10000 - 5000 <= Timestamp entry.2) threeVessels ∧
  (sweep 10000 5000 map_to_list threeVessels).2 =
    Z.of_nat (size (filter (λ entry, Timestamp entry.2 < 10000 - 5000) threeVessels)) ∧
  (sweep 10000 5000 map_to_list threeVessels).1 !! "old" = None ∧
  (sweep 10000 5000 map_to_list threeVessels).1 !! "fresh" = Some (stamped 5001) ∧
  (sweep 10000 5000 map_to_list threeVessels).1 !! "edge" = Some (stamped 5000).
Proof.
  pose proof (sweep_removes_expired 10000 5000 map_to_list threeVessels) as Hthm.
  destruct Hthm as (Hmap & Hcount & Hold & Hfresh & Hedge & _).
  - exact map_to_list_RangeOrder.
  - unfold int64_range, min_int64, max_int64. lia.
  - split_and!; [exact Hmap|exact Hcount| | |].
    + apply (Hold "old" (stamped 4999)); reflexivity.
    + apply (Hfresh "fresh" (stamped 5001)); reflexivity.
    + apply (Hedge "edge" (stamped 5000)); reflexivity.
Defined.

Example sweep_threeVessels :
  sweep 10000 5000 map_to_list threeVessels =
  (<["edge" := stamped 5000]> (<["fresh" := stamped 5001]> ∅), 1).
Proof. vm_compute. reflexivity. Qed.

(** ** The handlers *)

Section Handlers.
Context {lib : GoLib}.

Lemma Get_absent (params : gmap string (list string)) (key : string) :
  params !! key = None → Get params key = "".
Proof. unfold Get. by intros ->. Qed.

Lemma Get_first (params : gmap string (list string)) (key x : string) (rest : list string) :
  params !! key = Some (x :: rest) → Get params key = x.
Proof. unfold Get. by intros ->. Qed.

Lemma Encode_errorObject (e : ErrorCode) : Encode (errorObject e) = Some (errorObject e).
Proof.
  unfold Encode, errorObject. rewrite decide_True; [done|].
  by apply map_Forall_singleton.
Qed.

(** The write of a request that passes both guards. *)
Lemma setVesselTelemetry_write_accepted (params : gmap string (list string)) (stamp : Z)
    (s : State) :
  Get params "veh_id" ≠ "" →
  Get params "type" ≠ "" →
  setVesselTelemetry_write params stamp s =
  set_vessels s (<[Get params "veh_id" := telemetry params stamp]> (vessels s)).
Proof.
  intros Hid Hty. unfold setVesselTelemetry_write.
  rewrite decide_False by done. by rewrite decide_False by done.
Qed.

Lemma setVesselTelemetry_write_stored (params : gmap string (list string)) (stamp : Z)
    (s : State) :
  Get params "veh_id" ≠ "" →
  Get params "type" ≠ "" →
  vessels (setVesselTelemetry_write params stamp s) !! Get params "veh_id" =
  Some (telemetry params stamp).
Proof.
  intros Hid Hty. rewrite setVesselTelemetry_write_accepted by done.
  simpl. apply lookup_insert_eq.
Qed.

(** The write, by the key it writes. *)
Lemma setVesselTelemetry_write_state (params : gmap string (list string)) (stamp now : Z)
    (range : Range) (s : State) :
  setVesselTelemetry_write params stamp s =
  match upsertKey (SetRequest params stamp now range) with
  | Some k => set_vessels s (<[k := telemetry params stamp]> (vessels s))
  | None => s
  end.
Proof. unfold setVesselTelemetry_write. simpl. by repeat case_decide. Qed.

(** The state that the handler leaves is the one its write leaves. *)
Lemma setVesselTelemetry_fst (params : gmap string (list string)) (stamp now : Z)
    (range : Range) (gap : list Event) (s : State) :
  (setVesselTelemetry params stamp now range gap s).1 =
  setVesselTelemetry_write params stamp s.
Proof. unfold setVesselTelemetry, setVesselTelemetry_write. by repeat case_decide. Qed.

(** The request passes both guards: the record is written, and the map is
    listed after the events of the gap. *)
Lemma setVesselTelemetry_accepted (params : gmap string (list string)) (stamp now : Z)
    (range : Range) (gap : list Event) (s : State) :
  Get params "veh_id" ≠ "" →
  Get params "type" ≠ "" →
  setVesselTelemetry params stamp now range gap s =
  (set_vessels s (<[Get params "veh_id" := telemetry params stamp]> (vessels s)),
   respond (snapshot range
              (vessels (run (set_vessels s (<[Get params "veh_id" := telemetry params stamp]>
                                              (vessels s))) gap)) now)).
Proof.
  intros Hid Hty. unfold setVesselTelemetry.
  rewrite decide_False by done. by rewrite decide_False by done.
Qed.


(** C3. A request whose [veh_id] is empty or absent is answered with the
    object that has the single field [errorcode = 1201], and the state is the
    one before the call; a request with a [veh_id] whose [type] is empty or
    absent is answered with the single field [errorcode = 1202], and the state
    is the one before the call. *)
Theorem missing_field_errors (params : gmap string (list string)) (stamp now : Z)
    (range : Range) (gap : list Event) (s : State) :
  (Get params "veh_id" = "" →
   setVesselTelemetry params stamp now range gap s =
   (s, {| ContentType := "application/json";
          Body := Some {[ "errorcode" := JInt 1201 ]} |})) ∧
  (params !! "veh_id" = None →
   setVesselTelemetry params stamp now range gap s =
   (s, {| ContentType := "application/json";
          Body := Some {[ "errorcode" := JInt 1201 ]} |})) ∧
  (Get params "veh_id" ≠ "" → Get params "type" = "" →
   setVesselTelemetry params stamp now range gap s =
   (s, {| ContentType := "application/json";
          Body := Some {[ "errorcode" := JInt 1202 ]} |})) ∧
  (Get params "veh_id" ≠ "" → params !! "type" = None →
   setVesselTelemetry params stamp now range gap s =
   (s, {| ContentType := "application/json";
          Body := Some {[ "errorcode" := JInt 1202 ]} |})).
Proof.
  assert (Hid : Get params "veh_id" = "" →
    setVesselTelemetry params stamp now range gap s =
    (s, {| ContentType := "application/json";
           Body := Some {[ "errorcode" := JInt 1201 ]} |})).
  { intros Hid. unfold setVesselTelemetry. rewrite decide_True by done.
    unfold respond. by rewrite Encode_errorObject. }
  assert (Hty : Get params "veh_id" ≠ "" → Get params "type" = "" →
    setVesselTelemetry params stamp now range gap s =
    (s, {| ContentType := "application/json";
           Body := Some {[ "errorcode" := JInt 1202 ]} |})).
  { intros Hid' Hty. unfold setVesselTelemetry.
    rewrite decide_False by done. rewrite decide_True by done.
    unfold respond. by rewrite Encode_errorObject. }
  split_and!; auto using Get_absent.
Qed.

(** The record that an accepted request leaves under its key. *)
Lemma setVesselTelemetry_stored (params : gmap string (list string)) (stamp now : Z)
    (range : Range) (gap : list Event) (s : State) :
  Get params "veh_id" ≠ "" →
  Get params "type" ≠ "" →
  vessels (setVesselTelemetry params stamp now range gap s).1 !! Get params "veh_id" =
  Some (telemetry params stamp).
Proof.
  intros Hid Hty. rewrite setVesselTelemetry_accepted by done.
  simpl. apply lookup_insert_eq.
Qed.

Lemma floatParams_parsed (params : gmap string (list string)) (stamp : Z)
    (name : string) (field : VesselTelemetry → PrimFloat.float) :
  (name, field) ∈ floatParams →
  field (telemetry params stamp) = parseFloat (Get params name).
Proof.
  unfold floatParams. intros Hin.
  repeat (apply elem_of_cons in Hin as [Heq|Hin]; [by simplify_eq|]).
  by apply elem_of_nil in Hin.
Qed.

(** C4. A request that reaches the store leaves a record whose [HasTgt] is
    [tgtX != 0 && tgtY != 0] on the parsed [tgt_x] and [tgt_y].  Where the
    library scans the strings 0, 3 and 5 as the numbers 0, 3 and 5:
    [tgt_x=0&tgt_y=5] gives false, [tgt_x=3&tgt_y=5] gives true and
    [tgt_x=0&tgt_y=0] gives false. *)
Theorem hasTarget_derivation (params : gmap string (list string)) (stamp now : Z)
    (range : Range) (gap : list Event) (s : State) :
  Get params "veh_id" ≠ "" →
  Get params "type" ≠ "" →
  Sscanf_f "0" = Some 0%float →
  Sscanf_f "3" = Some 3%float →
  Sscanf_f "5" = Some 5%float →
  vessels (setVesselTelemetry params stamp now range gap s).1 !! Get params "veh_id" =
    Some (telemetry params stamp) ∧
  TgtX (telemetry params stamp) = parseFloat (Get params "tgt_x") ∧
  TgtY (telemetry params stamp) = parseFloat (Get params "tgt_y") ∧
  HasTgt (telemetry params stamp) =
    float64_ne (TgtX (telemetry params stamp)) float64_zero &&
    float64_ne (TgtY (telemetry params stamp)) float64_zero ∧
  (Get params "tgt_x" = "0" → Get params "tgt_y" = "5" →
   HasTgt (telemetry params stamp) = false) ∧
  (Get params "tgt_x" = "3" → Get params "tgt_y" = "5" →
   HasTgt (telemetry params stamp) = true) ∧
  (Get params "tgt_x" = "0" → Get params "tgt_y" = "0" →
   HasTgt (telemetry params stamp) = false).
Proof.
  intros Hid Hty H0 H3 H5.
  split; [by apply setVesselTelemetry_stored|].
  split_and!; try reflexivity.
  - intros Hx Hy. simpl. unfold parseFloat. by rewrite Hx, Hy, H0, H5.
  - intros Hx Hy. simpl. unfold parseFloat. by rewrite Hx, Hy, H3, H5.
  - intros Hx Hy. simpl. unfold parseFloat. by rewrite Hx, Hy, H0.
Qed.

(** C5, as amended. For each of the eight numeric parameters of an accepted
    request the record holds [parseFloat] of the parameter: the number that
    [fmt.Sscanf] scans from the string when it scans one, and [0.0] when the
    scan reports an error; an absent parameter is scanned as the empty
    string, so it gives [0.0] when the library fails on the empty string.
    The record is stored whatever these parameters are.  In particular
    [veh_x=notanumber], on which the scan reports an error, stores
    [X = 0.0]. *)
Theorem malformed_float_is_zero (params : gmap string (list string)) (stamp now : Z)
    (range : Range) (gap : list Event) (s : State) :
  Get params "veh_id" ≠ "" →
  Get params "type" ≠ "" →
  Sscanf_f "" = None →
  Sscanf_f "notanumber" = None →
  vessels (setVesselTelemetry params stamp now range gap s).1 !! Get params "veh_id" =
    Some (telemetry params stamp) ∧
  (∀ name field, (name, field) ∈ floatParams →
     field (telemetry params stamp) = parseFloat (Get params name) ∧
     (∀ v, Sscanf_f (Get params name) = Some v →
           field (telemetry params stamp) = v) ∧
     (Sscanf_f (Get params name) = None →
      field (telemetry params stamp) = float64_zero) ∧
     (params !! name = None → field (telemetry params stamp) = float64_zero)) ∧
  (Get params "veh_x" = "notanumber" → X (telemetry params stamp) = float64_zero).
Proof.
  intros Hid Hty Hempty Hnan.
  split; [by apply setVesselTelemetry_stored|]. split.
  - intros name field Hin. rewrite (floatParams_parsed _ _ _ _ Hin).
    split_and!; [done| | |].
    + intros v Hv. unfold parseFloat. by rewrite Hv.
    + intros Hfail. unfold parseFloat. by rewrite Hfail.
    + intros Habs. rewrite (Get_absent _ _ Habs). unfold parseFloat. by rewrite Hempty.
  - intros Hx. simpl. unfold parseFloat. by rewrite Hx, Hnan.
Qed.

(** C6, as amended. A request with a non-empty [veh_id] that [ParseInt]
    rejects and a non-empty [type] is accepted: the record is stored under
    the raw [veh_id] string and its [ID] is [-1]. *)
Theorem unparseable_id_stored (params : gmap string (list string)) (stamp now : Z)
    (range : Range) (gap : list Event) (s : State) :
  Get params "veh_id" ≠ "" →
  Get params "type" ≠ "" →
  ParseInt (Get params "veh_id") = None →
  vessels (setVesselTelemetry params stamp now range gap s).1 !! Get params "veh_id" =
    Some (telemetry params stamp) ∧
  ID (telemetry params stamp) = -1.
Proof.
  intros Hid Hty Hparse.
  split; [by apply setVesselTelemetry_stored|].
  simpl. unfold vehIdInt. by rewrite Hparse.
Qed.

(** C8. Converting an [int32] to a [VesselType] and back gives the same
    integer, for every integer: the codes other than 1, 2, 3 and 4 are not
    special.  The record of an accepted request holds the code scanned from
    [type] as it is. *)
Theorem VesselType_roundtrip (c : Z) :
  VesselType_ToInt32 (VesselTypeFromInt32 c) = c ∧
  ∀ (params : gmap string (list string)) (stamp now : Z) (range : Range)
    (gap : list Event) (s : State),
    Get params "veh_id" ≠ "" →
    Get params "type" ≠ "" →
    Sscanf_d (Get params "type") = Some c →
    vessels (setVesselTelemetry params stamp now range gap s).1 !! Get params "veh_id" =
      Some (telemetry params stamp) ∧
    VesselType_ToInt32 (Type_ (telemetry params stamp)) = c.
Proof.
  split; [reflexivity|].
  intros params stamp now range gap s Hid Hty Hscan.
  split; [by apply setVesselTelemetry_stored|].
  simpl. unfold parseInt32. by rewrite Hscan.
Qed.

End Handlers.

Lemma missing_field_errors_witness :
  setVesselTelemetry (lib := sampleLib) (query [("veh_x", "1.5"); ("type", "2")])
    10000 10001 map_to_list [] (main_init []) =
  (main_init [], {| ContentType := "application/json";
                    Body := Some {[ "errorcode" := JInt 1201 ]} |}) ∧
  setVesselTelemetry (lib := sampleLib) (query [("veh_id", "42"); ("type", "")])
    10000 10001 map_to_list [] (main_init []) =
  (main_init [], {| ContentType := "application/json";
                    Body := Some {[ "errorcode" := JInt 1202 ]} |}).
Proof.
  split.
  - apply (proj1 (proj2 (missing_field_errors (lib := sampleLib)
      (query [("veh_x", "1.5"); ("type", "2")]) 10000 10001 map_to_list [] (main_init [])))).
    vm_compute. reflexivity.
  - apply (proj1 (proj2 (proj2 (missing_field_errors (lib := sampleLib)
      (query [("veh_id", "42"); ("type", "")]) 10000 10001 map_to_list [] (main_init []))))).
    + vm_compute. discriminate.
    + vm_compute. reflexivity.
Defined.

Lemma hasTarget_derivation_witness :
  vessels (setVesselTelemetry (lib := sampleLib) (targetQuery "3" "5")
             10000 10001 map_to_list [] (main_init [])).1 !! "42" =
    Some (telemetry (lib := sampleLib) (targetQuery "3" "5") 10000) ∧
  HasTgt (telemetry (lib := sampleLib) (targetQuery "3" "5") 10000) = true.
Proof.
  pose proof (hasTarget_derivation (lib := sampleLib) (targetQuery "3" "5")
                10000 10001 map_to_list [] (main_init [])) as Hthm.
  destruct Hthm as (Hstored & _ & _ & _ & _ & Htrue & _);
    [vm_compute; discriminate | vm_compute; discriminate
    | reflexivity | reflexivity | reflexivity |].
  split; [exact Hstored|]. apply Htrue; reflexivity.
Defined.

Example hasTarget_0_5 :
  HasTgt (telemetry (lib := sampleLib) (targetQuery "0" "5") 10000) = false.
Proof. reflexivity. Qed.

Example hasTarget_3_5 :
  HasTgt (telemetry (lib := sampleLib) (targetQuery "3" "5") 10000) = true.
Proof. reflexivity. Qed.

Example hasTarget_0_0 :
  HasTgt (telemetry (lib := sampleLib) (targetQuery "0" "0") 10000) = false.
Proof. reflexivity. Qed.

Lemma malformed_float_is_zero_witness :
  vessels (setVesselTelemetry (lib := sampleLib) malformedQuery
             10000 10001 map_to_list [] (main_init [])).1 !! "42" =
    Some (telemetry (lib := sampleLib) malformedQuery 10000) ∧
  X (telemetry (lib := sampleLib) malformedQuery 10000) = float64_zero ∧
  TgtZ (telemetry (lib := sampleLib) malformedQuery 10000) = float64_zero.
Proof.
  pose proof (malformed_float_is_zero (lib := sampleLib) malformedQuery
                10000 10001 map_to_list [] (main_init [])) as Hthm.
  destruct Hthm as (Hstored & Hfields & Hx);
    [vm_compute; discriminate | vm_compute; discriminate
    | reflexivity | reflexivity |].
  split; [exact Hstored|]. split; [apply Hx; reflexivity|].
  apply (Hfields "tgt_z" TgtZ); [|reflexivity].
  unfold floatParams. do 7 apply list_elem_of_further. apply list_elem_of_here.
Defined.

(** C5 as it is stated fails: [1.5abc] is no floating-point number, but
    [fmt.Sscanf] scans the [1.5] it starts with, and [veh_x=1.5abc] stores
    [X = 1.5], which is not [0.0]; in the same way [veh_x=nanotech] stores a
    NaN. *)
Lemma numeric_prefix_is_stored :
  Sscanf_f (GoLib := sampleLib) "1.5abc" = Some 1.5%float ∧
  vessels (setVesselTelemetry (lib := sampleLib)
             (query [("veh_id", "42"); ("type", "2"); ("veh_x", "1.5abc")])
             10000 10001 map_to_list [] (main_init [])).1 !! "42" =
    Some (telemetry (lib := sampleLib)
            (query [("veh_id", "42"); ("type", "2"); ("veh_x", "1.5abc")]) 10000) ∧
  X (telemetry (lib := sampleLib)
       (query [("veh_id", "42"); ("type", "2"); ("veh_x", "1.5abc")]) 10000) = 1.5%float ∧
  float64_ne 1.5%float float64_zero = true ∧
  X (telemetry (lib := sampleLib)
       (query [("veh_id", "42"); ("type", "2"); ("veh_x", "nanotech")]) 10000) = nan.
Proof. vm_compute. auto. Qed.

(** C6 as it is stated fails: [veh_id=abc] with no [type] has a non-empty
    [veh_id] that [ParseInt] rejects, and the request is answered with
    [errorcode = 1202] while no record is stored under [abc]. *)
Lemma unparseable_id_rejected_without_type :
  Get (query [("veh_id", "abc")]) "veh_id" = "abc" ∧
  ParseInt (GoLib := sampleLib) "abc" = None ∧
  Body (setVesselTelemetry (lib := sampleLib) (query [("veh_id", "abc")])
          10000 10001 map_to_list [] (main_init [])).2 =
    Some {[ "errorcode" := JInt 1202 ]} ∧
  vessels (setVesselTelemetry (lib := sampleLib) (query [("veh_id", "abc")])
             10000 10001 map_to_list [] (main_init [])).1 !! "abc" = None.
Proof. vm_compute. auto. Qed.

Lemma unparseable_id_stored_witness :
  vessels (setVesselTelemetry (lib := sampleLib) (idQuery "abc" "2")
             10000 10001 map_to_list [] (main_init [])).1 !! "abc" =
    Some (telemetry (lib := sampleLib) (idQuery "abc" "2") 10000) ∧
  ID (telemetry (lib := sampleLib) (idQuery "abc" "2") 10000) = -1.
Proof.
  apply (unparseable_id_stored (lib := sampleLib) (idQuery "abc" "2")
           10000 10001 map_to_list [] (main_init [])).
  - vm_compute. discriminate.
  - vm_compute. discriminate.
  - reflexivity.
Defined.

Lemma VesselType_roundtrip_witness :
  VesselType_ToInt32 (VesselTypeFromInt32 9) = 9 ∧
  VesselType_ToInt32 (Type_ (telemetry (lib := sampleLib) (idQuery "42" "9") 10000)) = 9.
Proof.
  destruct (VesselType_roundtrip (lib := sampleLib) 9) as [Hround Hstored].
  split; [exact Hround|].
  apply (Hstored (idQuery "42" "9") 10000 10001 map_to_list [] (main_init [])).
  - vm_compute. discriminate.
  - vm_compute. discriminate.
  - reflexivity.
Defined.

(** ** Sequences of requests *)

Section Sequences.
Context {lib : GoLib}.

Lemma run_app (s : State) (events1 events2 : list Event) :
  run s (events1 ++ events2) = run (run s events1) events2.
Proof. apply foldl_app. Qed.

(** A listing of the map never shows a key twice. *)
Lemma range_keys_NoDup (range : Range) (m : Vessels) :
  RangeOrder range → NoDup (range m).*1.
Proof. intros Hrange. rewrite (Hrange m). apply NoDup_fst_map_to_list. Qed.

Lemma range_elem_of (range : Range) (m : Vessels) (k : string) (v : VesselTelemetry) :
  RangeOrder range → (k, v) ∈ range m ↔ m !! k = Some v.
Proof. intros Hrange. rewrite (Hrange m). apply elem_of_map_to_list. Qed.

(** The entries of a listing under one key: the record of the map, once. *)
Lemma range_entries_of_key (range : Range) (m : Vessels) (k : string) (v : VesselTelemetry) :
  RangeOrder range →
  m !! k = Some v →
  filter (λ entry, entry.1 = k) (range m) = [(k, v)].
Proof.
  intros Hrange Hk. apply Permutation_singleton_r. apply NoDup_Permutation.
  - apply NoDup_filter. rewrite (Hrange m). apply NoDup_map_to_list.
  - apply NoDup_singleton.
  - intros [k' v']. rewrite list_elem_of_filter, list_elem_of_singleton.
    rewrite range_elem_of by done. simpl. split.
    + intros [-> Hk']. congruence.
    + intros [= -> ->]. done.
Qed.

(** An event that spares a record leaves it where it is. *)
Lemma step_spares (k : string) (v : VesselTelemetry) (e : Event) (s : State) :
  vessels s !! k = Some v →
  spares k (Timestamp v) e →
  vessels (step s e) !! k = Some v.
Proof.
  intros Hk He.
  destruct e as [|params stamp now range|now range|now range]; simpl; try done.
  - rewrite (setVesselTelemetry_write_state params stamp now range).
    destruct (upsertKey (SetRequest params stamp now range)) as [k'|] eqn:Hkey; [|done].
    simpl. rewrite lookup_insert_ne; [done|]. intros ->. by apply He.
  - destruct He as (Hrange & Hnow & Hle).
    destruct (cleanupEnabled s) eqn:Hflag.
    + rewrite cleanupOldVessels_enabled by done. simpl.
      rewrite sweep_map, sub64_exact by done.
      apply map_lookup_filter_Some. split; [done|]. simpl. lia.
    + unfold cleanupOldVessels. by rewrite Hflag.
Qed.

Lemma run_spares (k : string) (v : VesselTelemetry) (events : list Event) :
  ∀ s, vessels s !! k = Some v →
       Forall (spares k (Timestamp v)) events →
       vessels (run s events) !! k = Some v.
Proof.
  induction events as [|e events IH]; intros s Hk Hspares; [done|].
  apply Forall_cons in Hspares as [He Hspares].
  apply (IH (step s e)); [by apply step_spares|done].
Qed.

(** The position of a record in a listing, and in the list of records made
    from it: there is one position for its key. *)
Lemma range_position (range : Range) (m : Vessels) (k : string) (v : VesselTelemetry) :
  RangeOrder range →
  m !! k = Some v →
  ∃ i, range m !! i = Some (k, v) ∧
       vesselsList range m !! i = Some v ∧
       ∀ j v', range m !! j = Some (k, v') → j = i.
Proof.
  intros Hrange Hk.
  assert (Hin : (k, v) ∈ range m) by by apply range_elem_of.
  apply list_elem_of_lookup in Hin as [i Hi]. exists i. split_and!; [done| |].
  - unfold vesselsList. by rewrite list_lookup_fmap, Hi.
  - intros j v' Hj.
    apply (NoDup_lookup (range m).*1 j i k); [by apply range_keys_NoDup| |].
    + by rewrite list_lookup_fmap, Hj.
    + by rewrite list_lookup_fmap, Hi.
Qed.

(** ** The sweeper flag *)

Lemma step_cleanupEnabled (s : State) (e : Event) :
  cleanupEnabled (step s e) = cleanupEnabled s.
Proof.
  destruct e as [|params stamp now range|now range|now range]; simpl; try done.
  - unfold setVesselTelemetry_write. repeat case_decide; done.
  - unfold cleanupOldVessels. destruct (cleanupEnabled s) eqn:Hflag; simpl; [|done].
    by destruct (sweep _ _ _ _).
Qed.

(** C10. [main] starts the server with the flag set, no step of the server
    changes the flag, so it is set in every state the server reaches, and
    there every iteration of the sweeper loop takes the branch that sweeps. *)
Theorem cleanupEnabled_invariant (s : State) :
  reachable s →
  (∀ u, cleanupEnabled (main_init u) = true) ∧
  (∀ s' e, cleanupEnabled (step s' e) = cleanupEnabled s') ∧
  cleanupEnabled s = true ∧
  ∀ now range,
    step s (SweeperTick now range) =
    set_vessels s (sweep now 5000 range (vessels s)).1.
Proof.
  intros Hreach.
  assert (Hflag : cleanupEnabled s = true).
  { induction Hreach as [u|s e Hreach IH]; [done|]. by rewrite step_cleanupEnabled. }
  split_and!; [done|apply step_cleanupEnabled|done|].
  intros now range. simpl. by rewrite cleanupOldVessels_enabled.
Qed.

End Sequences.

Lemma cleanupEnabled_invariant_witness :
  (∀ u, cleanupEnabled (main_init u) = true) ∧
  (∀ s' e, cleanupEnabled (step (lib := sampleLib) s' e) = cleanupEnabled s') ∧
  cleanupEnabled (step (lib := sampleLib) (main_init [])
                    (SetRequest (idQuery "42" "2") 10000 10001 map_to_list)) = true ∧
  ∀ now range,
    step (lib := sampleLib)
      (step (lib := sampleLib) (main_init [])
         (SetRequest (idQuery "42" "2") 10000 10001 map_to_list))
      (SweeperTick now range) =
    set_vessels
      (step (lib := sampleLib) (main_init [])
         (SetRequest (idQuery "42" "2") 10000 10001 map_to_list))
      (sweep now 5000 range
         (vessels (step (lib := sampleLib) (main_init [])
                     (SetRequest (idQuery "42" "2") 10000 10001 map_to_list)))).1.
Proof.
  apply (cleanupEnabled_invariant (lib := sampleLib)
           (step (lib := sampleLib) (main_init [])
              (SetRequest (idQuery "42" "2") 10000 10001 map_to_list))).
  apply reachable_step. apply reachable_init.
Defined.

(** ** The listing and its encoding *)

Section Listing.
Context {lib : GoLib}.

(** The object that both routes hand to the encoder: the four fields, the
    records of the store, each once, and their number. *)
Lemma snapshot_fields (range : Range) (m : Vessels) (now : Z) :
  RangeOrder range →
  snapshot range m now !! "errorcode" = Some (JInt (-1)) ∧
  snapshot range m now !! "vessels" = Some (JVessels (vesselsList range m)) ∧
  snapshot range m now !! "count" = Some (JInt (Z.of_nat (length (vesselsList range m)))) ∧
  snapshot range m now !! "timestamp" = Some (JInt now) ∧
  dom (snapshot range m now) = {[ "errorcode"; "vessels"; "count"; "timestamp" ]} ∧
  vesselsList range m ≡ₚ (map_to_list m).*2 ∧
  length (vesselsList range m) = size m.
Proof.
  intros Hrange. unfold snapshot. split_and!.
  - by rewrite lookup_insert_eq.
  - rewrite lookup_insert_ne by done. by rewrite lookup_insert_eq.
  - do 2 rewrite lookup_insert_ne by done. by rewrite lookup_insert_eq.
  - do 3 rewrite lookup_insert_ne by done. by rewrite lookup_insert_eq.
  - rewrite !dom_insert_L, dom_empty_L. set_solver.
  - unfold vesselsList. by rewrite (Hrange m).
  - unfold vesselsList. by rewrite (Hrange m), length_fmap, length_map_to_list.
Qed.

(** The encoder accepts the listing exactly when every record in it is free
    of NaN and infinities. *)
Lemma Encode_snapshot (range : Range) (m : Vessels) (now : Z) :
  Encode (snapshot range m now) =
  if forallb VesselTelemetry_marshalable (vesselsList range m)
  then Some (snapshot range m now)
  else None.
Proof.
  unfold Encode.
  destruct (forallb VesselTelemetry_marshalable (vesselsList range m)) eqn:Hall.
  - rewrite decide_True; [done|]. unfold snapshot.
    repeat apply map_Forall_insert_2; simpl; try done.
    all: first [by rewrite Hall | apply map_Forall_empty].
  - rewrite decide_False; [done|]. intros Hforall.
    assert (Hv : snapshot range m now !! "vessels" = Some (JVessels (vesselsList range m))).
    { unfold snapshot. rewrite lookup_insert_ne by done. by rewrite lookup_insert_eq. }
    apply Hforall in Hv. simpl in Hv. by rewrite Hall in Hv.
Qed.

(** While every stored record is free of NaN and infinities, the body of
    the listing is the object of [snapshot_fields]. *)
Lemma respond_snapshot_finite (range : Range) (m : Vessels) (now : Z) :
  RangeOrder range →
  map_Forall (λ _ v, VesselTelemetry_marshalable v = true) m →
  Body (respond (snapshot range m now)) = Some (snapshot range m now).
Proof.
  intros Hrange Hfinite. unfold respond. simpl. rewrite Encode_snapshot.
  replace (forallb VesselTelemetry_marshalable (vesselsList range m)) with true; [done|].
  symmetry. apply forallb_forall. intros v Hv. apply list_elem_of_In in Hv.
  unfold vesselsList in Hv. apply list_elem_of_fmap in Hv as [[k v'] [-> Hin]].
  apply range_elem_of in Hin; [|done]. by apply (Hfinite k).
Qed.

(** One record with a NaN or an infinity in the store, and the listing has
    no body. *)
Lemma respond_snapshot_lost (range : Range) (m : Vessels) (now : Z)
    (k : string) (v : VesselTelemetry) :
  RangeOrder range →
  m !! k = Some v →
  VesselTelemetry_marshalable v = false →
  Body (respond (snapshot range m now)) = None.
Proof.
  intros Hrange Hk Hv. unfold respond. simpl. rewrite Encode_snapshot.
  destruct (forallb VesselTelemetry_marshalable (vesselsList range m)) eqn:Hall; [|done].
  rewrite forallb_forall in Hall. specialize (Hall v). rewrite Hv in Hall.
  exfalso. apply diff_false_true, Hall. apply list_elem_of_In.
  unfold vesselsList. apply list_elem_of_fmap. exists (k, v). split; [done|].
  by apply range_elem_of.
Qed.

(** C7, where the code departs from it. [veh_id=1&type=2&veh_x=NaN], with a
    library that scans NaN as the NaN: the request passes both guards, the
    record is stored with [X] a NaN, the encoder refuses the listing, and so
    the response to this request (nothing else served in the gap) has no
    body, and neither has the response to a [getVessels] request that
    follows. *)
Theorem NaN_loses_response (s : State) (stamp now now' : Z) (range range' : Range) :
  RangeOrder range →
  RangeOrder range' →
  Sscanf_f "NaN" = Some nan →
  vessels (setVesselTelemetry nanQuery stamp now range [] s).1 !! "1" =
    Some (telemetry nanQuery stamp) ∧
  X (telemetry nanQuery stamp) = nan ∧
  Body (setVesselTelemetry nanQuery stamp now range [] s).2 = None ∧
  Body (getTelemetryData now' range'
          (setVesselTelemetry nanQuery stamp now range [] s).1).2 = None.
Proof.
  intros Hrange Hrange' Hscan.
  assert (Hx : X (telemetry nanQuery stamp) = nan).
  { simpl. unfold parseFloat. change (Get nanQuery "veh_x") with "NaN". by rewrite Hscan. }
  assert (Hbad : VesselTelemetry_marshalable (telemetry nanQuery stamp) = false).
  { unfold VesselTelemetry_marshalable. by rewrite Hx. }
  assert (Hstored : vessels (setVesselTelemetry nanQuery stamp now range [] s).1 !! "1" =
                    Some (telemetry nanQuery stamp)).
  { by apply (setVesselTelemetry_stored nanQuery). }
  split_and!; [done|done| |].
  - rewrite (setVesselTelemetry_accepted nanQuery) by done. simpl.
    eapply respond_snapshot_lost; [done| |done]. apply lookup_insert_eq.
  - unfold getTelemetryData. simpl. by eapply respond_snapshot_lost.
Qed.

End Listing.

Lemma NaN_loses_response_witness :
  vessels (setVesselTelemetry (lib := sampleLib) nanQuery 10000 10001 map_to_list
             [] (main_init [])).1 !! "1" =
    Some (telemetry (lib := sampleLib) nanQuery 10000) ∧
  X (telemetry (lib := sampleLib) nanQuery 10000) = nan ∧
  Body (setVesselTelemetry (lib := sampleLib) nanQuery 10000 10001 map_to_list
          [] (main_init [])).2 = None ∧
  Body (getTelemetryData 10002 map_to_list
          (setVesselTelemetry (lib := sampleLib) nanQuery 10000 10001 map_to_list
             [] (main_init [])).1).2 = None.
Proof.
  apply (NaN_loses_response (lib := sampleLib) (main_init []) 10000 10001 10002
           map_to_list map_to_list).
  - exact map_to_list_RangeOrder.
  - exact map_to_list_RangeOrder.
  - reflexivity.
Defined.

(** One request with every position parameter, then [getVessels]: the body
    lists the one record, with [count = 1]. *)
Example set_then_get :
  Body (getTelemetryData 10002 map_to_list
          (step (lib := sampleLib) (main_init [])
             (SetRequest fullQuery 10000 10001 map_to_list))).2 =
  Some (<["errorcode" := JInt (-1)]>
          (<["vessels" := JVessels
               [{| ID := 42; Name := ""; Callsign := "";
                   X := 1.5%float; Y := 2.5%float; Z_ := 0%float;
                   ABSSpeed := 10%float; Type_ := Vessel; Direction := 90%float;
                   Timestamp := 10000;
                   TgtX := 0%float; TgtY := 0%float; TgtZ := 0%float;
                   HasTgt := false |}]]>
             (<["count" := JInt 1]> (<["timestamp" := JInt 10002]> ∅)))).
Proof. vm_compute. reflexivity. Qed.

(** ** The same vessel twice, and two vessels with one integer *)

Section Upserts.
Context {lib : GoLib}.


(** C9, as amended. Two accepted requests (non-empty [veh_id] and [type])
    whose [veh_id] strings differ but give the same integer, the second one
    served while the record of the first is still there (the events between
    them spare it), leave two entries in the store, one under each string, at
    two positions of the listing, with equal [ID] fields; both are [-1] when
    [ParseInt] rejects both strings. *)
Theorem raw_key_uniqueness (s : State) (p1 p2 : gmap string (list string))
    (t1 n1 t2 n2 : Z) (rg1 rg2 range : Range) (between : list Event) :
  RangeOrder range →
  Get p1 "veh_id" ≠ "" →
  Get p1 "type" ≠ "" →
  Get p2 "veh_id" ≠ "" →
  Get p2 "type" ≠ "" →
  Get p1 "veh_id" ≠ Get p2 "veh_id" →
  vehIdInt (Get p1 "veh_id") = vehIdInt (Get p2 "veh_id") →
  Forall (spares (Get p1 "veh_id") t1) between →
  ∃ r1 r2 i j,
    vessels (run s (twice (SetRequest p1 t1 n1 rg1) between (SetRequest p2 t2 n2 rg2)))
      !! Get p1 "veh_id" = Some r1 ∧
    vessels (run s (twice (SetRequest p1 t1 n1 rg1) between (SetRequest p2 t2 n2 rg2)))
      !! Get p2 "veh_id" = Some r2 ∧
    i ≠ j ∧
    vesselsList range
      (vessels (run s (twice (SetRequest p1 t1 n1 rg1) between (SetRequest p2 t2 n2 rg2))))
      !! i = Some r1 ∧
    vesselsList range
      (vessels (run s (twice (SetRequest p1 t1 n1 rg1) between (SetRequest p2 t2 n2 rg2))))
      !! j = Some r2 ∧
    ID r1 = ID r2 ∧
    ID r1 = vehIdInt (Get p1 "veh_id") ∧
    (ParseInt (Get p1 "veh_id") = None → ParseInt (Get p2 "veh_id") = None →
     ID r1 = -1 ∧ ID r2 = -1).
Proof.
  intros Hrange Hid1 Hty1 Hid2 Hty2 Hne Hsame Hspares.
  assert (Hrun : run s (twice (SetRequest p1 t1 n1 rg1) between (SetRequest p2 t2 n2 rg2)) =
                 setVesselTelemetry_write p2 t2
                   (run (setVesselTelemetry_write p1 t1 s) between)).
  { unfold twice.
    change (SetRequest p1 t1 n1 rg1 :: between ++ [SetRequest p2 t2 n2 rg2])
      with ([SetRequest p1 t1 n1 rg1] ++ between ++ [SetRequest p2 t2 n2 rg2])%list.
    by rewrite !run_app. }
  assert (Hk1 : vessels (run s (twice (SetRequest p1 t1 n1 rg1) between
                                      (SetRequest p2 t2 n2 rg2)))
                  !! Get p1 "veh_id" = Some (telemetry p1 t1)).
  { rewrite Hrun, setVesselTelemetry_write_accepted by done. simpl.
    rewrite lookup_insert_ne by done.
    apply run_spares; [by apply setVesselTelemetry_write_stored|done]. }
  assert (Hk2 : vessels (run s (twice (SetRequest p1 t1 n1 rg1) between
                                      (SetRequest p2 t2 n2 rg2)))
                  !! Get p2 "veh_id" = Some (telemetry p2 t2)).
  { rewrite Hrun. by apply setVesselTelemetry_write_stored. }
  destruct (range_position range _ _ _ Hrange Hk1) as (i & Hi & Hli & _).
  destruct (range_position range _ _ _ Hrange Hk2) as (j & Hj & Hlj & _).
  exists (telemetry p1 t1), (telemetry p2 t2), i, j.
  split_and!; try done.
  - intros ->. rewrite Hi in Hj. by simplify_eq.
  - intros Hp1 Hp2. simpl. unfold vehIdInt. by rewrite Hp1, Hp2.
Qed.

End Upserts.



(** C9 as it is stated fails, in two ways.  [veh_id=abc&type=2] and then
    [veh_id=xyz] with no [type] have distinct non-empty [veh_id] strings that
    both give [-1], and the store afterwards holds one record: none under
    [xyz].  With both types given, a sweeper iteration at 16000 between the
    request for [abc] at 10000 and the one for [xyz] at 16001 takes the first
    record away: again one record, none under [abc]. *)
Lemma raw_key_one_record_left :
  vehIdInt (lib := sampleLib) "abc" = -1 ∧
  vehIdInt (lib := sampleLib) "xyz" = -1 ∧
  vessels (run (lib := sampleLib) (main_init [])
             [SetRequest (idQuery "abc" "2") 10000 10001 map_to_list;
              SetRequest (query [("veh_id", "xyz")]) 10002 10003 map_to_list])
    !! "xyz" = None ∧
  size (vessels (run (lib := sampleLib) (main_init [])
             [SetRequest (idQuery "abc" "2") 10000 10001 map_to_list;
              SetRequest (query [("veh_id", "xyz")]) 10002 10003 map_to_list])) = 1%nat ∧
  vessels (run (lib := sampleLib) (main_init [])
             [SetRequest (idQuery "abc" "2") 10000 10001 map_to_list;
              SweeperTick 16000 map_to_list;
              SetRequest (idQuery "xyz" "2") 16001 16002 map_to_list])
    !! "abc" = None ∧
  size (vessels (run (lib := sampleLib) (main_init [])
             [SetRequest (idQuery "abc" "2") 10000 10001 map_to_list;
              SweeperTick 16000 map_to_list;
              SetRequest (idQuery "xyz" "2") 16001 16002 map_to_list])) = 1%nat.
Proof. vm_compute. auto 10. Qed.

Lemma raw_key_uniqueness_witness :
  ∃ r1 r2 i j,
    vessels (run (lib := sampleLib) (main_init [])
               (twice (SetRequest (idQuery "16" "2") 10000 10001 map_to_list)
                  [SweeperTick 15000 backwards; GetRequest 15001 map_to_list]
                  (SetRequest (idQuery "0x10" "2") 15002 15003 map_to_list)))
      !! "16" = Some r1 ∧
    vessels (run (lib := sampleLib) (main_init [])
               (twice (SetRequest (idQuery "16" "2") 10000 10001 map_to_list)
                  [SweeperTick 15000 backwards; GetRequest 15001 map_to_list]
                  (SetRequest (idQuery "0x10" "2") 15002 15003 map_to_list)))
      !! "0x10" = Some r2 ∧
    i ≠ j ∧
    vesselsList backwards
      (vessels (run (lib := sampleLib) (main_init [])
               (twice (SetRequest (idQuery "16" "2") 10000 10001 map_to_list)
                  [SweeperTick 15000 backwards; GetRequest 15001 map_to_list]
                  (SetRequest (idQuery "0x10" "2") 15002 15003 map_to_list))))
      !! i = Some r1 ∧
    vesselsList backwards
      (vessels (run (lib := sampleLib) (main_init [])
               (twice (SetRequest (idQuery "16" "2") 10000 10001 map_to_list)
                  [SweeperTick 15000 backwards; GetRequest 15001 map_to_list]
                  (SetRequest (idQuery "0x10" "2") 15002 15003 map_to_list))))
      !! j = Some r2 ∧
    ID r1 = ID r2 ∧
    ID r1 = 16.
Proof.
  destruct (raw_key_uniqueness (lib := sampleLib) (main_init [])
              (idQuery "16" "2") (idQuery "0x10" "2")
              10000 10001 15002 15003 map_to_list map_to_list backwards
              [SweeperTick 15000 backwards; GetRequest 15001 map_to_list])
    as (r1 & r2 & i & j & Hk1 & Hk2 & Hij & Hi & Hj & Hsame & Hid & _).
  - exact backwards_RangeOrder.
  - vm_compute. discriminate.
  - vm_compute. discriminate.
  - vm_compute. discriminate.
  - vm_compute. discriminate.
  - vm_compute. discriminate.
  - reflexivity.
  - repeat apply Forall_cons_2; try apply Forall_nil_2; simpl.
    + split; [exact backwards_RangeOrder|].
      unfold int64_range, min_int64, max_int64. lia.
    + exact I.
  - exists r1, r2, i, j. split_and!; [exact Hk1|exact Hk2|exact Hij|exact Hi|exact Hj
                                      |exact Hsame|exact Hid].
Defined.

Example two_unparseable_ids :
  (λ m : gmap string VesselTelemetry, (ID <$> m !! "abc", ID <$> m !! "xyz", size m))
    (vessels (run (lib := sampleLib) (main_init [])
       [SetRequest (idQuery "abc" "2") 10000 10001 map_to_list;
        SetRequest (idQuery "xyz" "2") 10002 10003 map_to_list])) =
  (Some (-1), Some (-1), 2%nat).
Proof. vm_compute. reflexivity. Qed.

(** * Further properties *)

(** ** The store along a trace *)

Section Traces.
Context {lib : GoLib}.

Lemma run_cons (s : State) (e : Event) (events : list Event) :
  run s (e :: events) = run (step s e) events.
Proof. reflexivity. Qed.

(** An accepted request inserts under its key. *)
Lemma step_upsert (s : State) (e : Event) (k : string) :
  upsertKey e = Some k →
  ∃ v, step s e = set_vessels s (<[k := v]> (vessels s)) ∧ wellKeyed k v.
Proof.
  destruct e as [|params stamp now range|now range|now range]; simpl; try done.
  repeat case_decide; try done. intros [= <-].
  exists (telemetry params stamp). split.
  - by rewrite setVesselTelemetry_write_accepted.
  - done.
Qed.

(** Every other event than a tick of the sweeper and an accepted request
    leaves the state as it is. *)
Lemma step_no_write (s : State) (e : Event) : writes e = false → step s e = s.
Proof.
  unfold writes. intros Hw. apply orb_false_elim in Hw as [Htick Hkey].
  apply bool_decide_eq_false in Hkey.
  destruct e as [|params stamp now range|now range|now range]; simpl in *; try done.
  unfold setVesselTelemetry_write. repeat case_decide; try done.
  exfalso. apply Hkey. eauto.
Qed.

(** The loop of the sweeper only deletes, whatever the listing it walks. *)
Lemma sweep_subseteq (now T : Z) (range : Range) (m : Vessels) :
  (sweep now T range m).1 ⊆ m.
Proof.
  apply map_subseteq_spec. intros k v. unfold sweep.
  rewrite sweep_loop_lookup. by case_decide.
Qed.

Lemma step_tick_subseteq (s : State) (now : Z) (range : Range) :
  vessels (step s (SweeperTick now range)) ⊆ vessels s.
Proof.
  simpl. unfold cleanupOldVessels. destruct (cleanupEnabled s); simpl; [|done].
  pose proof (sweep_subseteq now (cleanupThreshold `quot` Millisecond) range (vessels s)) as Hsub.
  by destruct (sweep _ _ _ _).
Qed.

Lemma step_cases (s : State) (e : Event) :
  (∃ k v, upsertKey e = Some k ∧ wellKeyed k v ∧
          step s e = set_vessels s (<[k := v]> (vessels s))) ∨
  (isSweeperTick e = true ∧ vessels (step s e) ⊆ vessels s) ∨
  (writes e = false ∧ step s e = s).
Proof.
  destruct (upsertKey e) as [k|] eqn:Hkey.
  - left. destruct (step_upsert s e k Hkey) as [v [Hstep Hv]]. eauto 6.
  - destruct (isSweeperTick e) eqn:Htick.
    + right; left. split; [done|]. destruct e; try done. apply step_tick_subseteq.
    + right; right.
      assert (Hw : writes e = false).
      { unfold writes. by rewrite Htick, Hkey. }
      split; [done|by apply step_no_write].
Qed.

(** X1. In every state the server reaches, each record of the store sits
    under a non-empty key, its [ID] is the integer that the key gives (or
    [-1]), and its [HasTgt] agrees with its [TgtX] and [TgtY]. *)
Theorem reachable_store_wellKeyed (s : State) :
  reachable s → map_Forall wellKeyed (vessels s).
Proof.
  induction 1 as [u|s e Hreach IH]; [apply map_Forall_empty|].
  destruct (step_cases s e) as [(k & v & _ & Hv & ->)|[[_ Hsub]|[_ ->]]]; [| |done].
  - simpl. by apply map_Forall_insert_2.
  - intros k v Hk. apply (IH k v). by eapply lookup_weaken.
Qed.

(** X2. Along a trace without a tick of the sweeper the keys of the store
    are those it had at the start and those of the accepted requests; from
    an empty store, requests with pairwise distinct keys leave as many records
    as there were accepted requests. *)
Theorem upserts_accumulate (s : State) (events : list Event) :
  Forall (λ e, isSweeperTick e = false) events →
  dom (vessels (run s events)) =
    dom (vessels s) ∪ list_to_set (omap upsertKey events) ∧
  (vessels s = ∅ → NoDup (omap upsertKey events) →
   size (vessels (run s events)) = length (omap upsertKey events)).
Proof.
  intros Hno.
  assert (Hdom : dom (vessels (run s events)) =
                 dom (vessels s) ∪ list_to_set (omap upsertKey events)).
  { revert s. induction Hno as [|e events He _ IH]; intros s.
    - simpl. by rewrite (right_id_L ∅ (∪)).
    - rewrite run_cons, IH. simpl.
      destruct (step_cases s e) as [(k & v & -> & _ & ->)|[[Htick _]|[Hw ->]]].
      + simpl. rewrite dom_insert_L.
        by rewrite (comm_L (∪) {[k]} (dom (vessels s))), (assoc_L (∪)).
      + congruence.
      + unfold writes in Hw. apply orb_false_elim in Hw as [_ Hkey].
        apply bool_decide_eq_false in Hkey.
        destruct (upsertKey e) as [k|]; [exfalso; apply Hkey; eauto|done]. }
  split; [done|]. intros Hempty Hnodup.
  rewrite <- size_dom, Hdom, Hempty, dom_empty_L, (left_id_L ∅ (∪)).
  by apply size_list_to_set.
Qed.

(** X3. A request to [setVesselTelemetry], accepted or not, leaves every
    record under another key than its [veh_id] as it was, and the store has
    afterwards as many records as before or one more. *)
Theorem setVesselTelemetry_frame (params : gmap string (list string)) (stamp now : Z)
    (range : Range) (gap : list Event) (s : State) (k : string) :
  k ≠ Get params "veh_id" →
  vessels (setVesselTelemetry params stamp now range gap s).1 !! k = vessels s !! k ∧
  (size (vessels s) ≤ size (vessels (setVesselTelemetry params stamp now range gap s).1)
     ≤ S (size (vessels s)))%nat.
Proof.
  intros Hk. unfold setVesselTelemetry. repeat case_decide; simpl; try (split; [done|lia]).
  split; [by rewrite lookup_insert_ne|].
  destruct (vessels s !! Get params "veh_id") as [v|] eqn:Hv.
  - rewrite map_size_insert_Some by eauto. lia.
  - rewrite map_size_insert_None by done. lia.
Qed.

End Traces.

(** ** More on the sweep *)

Section Sweeps.
Context {lib : GoLib}.

(** The records left and [removedCount] add up to the size the store had. *)
Lemma sweep_sizes (now T : Z) (range : Range) (m : Vessels) :
  RangeOrder range →
  Z.of_nat (size (sweep now T range m).1) + (sweep now T range m).2 =
    Z.of_nat (size m).
Proof.
  intros Hrange. rewrite sweep_map, sweep_count by done.
  rewrite <- (map_filter_union_complement
                (λ entry, sub64 now T <= Timestamp entry.2) m) at 3.
  rewrite map_size_disj_union by apply map_disjoint_filter_complement.
  assert (Hext : filter (λ entry, ¬ sub64 now T <= Timestamp entry.2) m =
                 filter (λ entry, Timestamp entry.2 < sub64 now T) m).
  { apply map_filter_ext. intros k v _. simpl. lia. }
  rewrite Hext. lia.
Qed.

(** X4. A sweep changes no record: what it leaves is part of the store as it
    was, every record left is no older than the threshold that line 122
    computes, and the records left and [removedCount] add up to the size the
    store had. *)
Theorem sweep_conserves (now T : Z) (range : Range) (m : Vessels) :
  RangeOrder range →
  (sweep now T range m).1 ⊆ m ∧
  map_Forall (λ _ v, sub64 now T <= Timestamp v) (sweep now T range m).1 ∧
  Z.of_nat (size (sweep now T range m).1) + (sweep now T range m).2 =
    Z.of_nat (size m).
Proof.
  intros Hrange. split; [apply sweep_subseteq|]. split; [|by apply sweep_sizes].
  rewrite sweep_map by done. intros k v Hk.
  by apply map_lookup_filter_Some in Hk as [_ Hk].
Qed.

(** X5. The order in which [range] walks the map does not show: two
    iterations of the sweeper loop at the same clock reading end in the same
    state and print the same lines. *)
Theorem cleanupOldVessels_order_irrelevant (now : Z) (range1 range2 : Range) (s : State) :
  RangeOrder range1 →
  RangeOrder range2 →
  cleanupOldVessels now range1 s = cleanupOldVessels now range2 s.
Proof.
  intros Hrange1 Hrange2. unfold cleanupOldVessels.
  destruct (cleanupEnabled s); simpl; [|done].
  assert (Heq : sweep now (cleanupThreshold `quot` Millisecond) range1 (vessels s) =
                sweep now (cleanupThreshold `quot` Millisecond) range2 (vessels s)).
  { apply injective_projections.
    - by rewrite !sweep_map.
    - by rewrite !sweep_count. }
  by rewrite Heq.
Qed.

(** X6. Two sweeps in a row, the second with a threshold that is not lower,
    leave what the second one alone leaves, and their counts add up to its
    count. *)
Theorem sweep_twice (now now' T : Z) (range1 range2 range3 : Range) (m : Vessels) :
  RangeOrder range1 →
  RangeOrder range2 →
  RangeOrder range3 →
  sub64 now T <= sub64 now' T →
  (sweep now' T range2 (sweep now T range1 m).1).1 = (sweep now' T range3 m).1 ∧
  (sweep now T range1 m).2 + (sweep now' T range2 (sweep now T range1 m).1).2 =
    (sweep now' T range3 m).2.
Proof.
  intros Hrange1 Hrange2 Hrange3 Hle.
  assert (Hmap : (sweep now' T range2 (sweep now T range1 m).1).1 =
                 (sweep now' T range3 m).1).
  { rewrite !sweep_map by done. apply map_filter_filter_l.
    intros k v _. simpl. lia. }
  split; [done|].
  pose proof (sweep_sizes now T range1 m Hrange1) as Hc1.
  pose proof (sweep_sizes now' T range2 (sweep now T range1 m).1 Hrange2) as Hc2.
  pose proof (sweep_sizes now' T range3 m Hrange3) as Hc3.
  rewrite Hmap in Hc2. lia.
Qed.

End Sweeps.

(** ** The sweeper and the requests together *)

Section Lifetime.
Context {lib : GoLib}.

Lemma step_cleanupEnabled_set (params : gmap string (list string)) (stamp : Z)
    (s : State) :
  cleanupEnabled (setVesselTelemetry_write params stamp s) = cleanupEnabled s.
Proof. apply (step_cleanupEnabled s (SetRequest params stamp 0 map_to_list)). Qed.

(** X7. An iteration of the sweeper loop that follows another one at the
    same clock reading removes nothing and prints nothing. *)
Theorem cleanupOldVessels_again (now : Z) (range1 range2 : Range) (s : State) :
  RangeOrder range1 →
  RangeOrder range2 →
  cleanupOldVessels now range2 (cleanupOldVessels now range1 s).1 =
  ((cleanupOldVessels now range1 s).1, []).
Proof.
  intros Hrange1 Hrange2.
  destruct (cleanupEnabled s) eqn:Hflag.
  - rewrite (cleanupOldVessels_enabled now range1 s Hflag). simpl.
    rewrite cleanupOldVessels_enabled by done. simpl.
    assert (Hmap : (sweep now 5000 range2 (sweep now 5000 range1 (vessels s)).1).1 =
                   (sweep now 5000 range1 (vessels s)).1).
    { rewrite !sweep_map by done. apply map_filter_id.
      intros k v Hk. by apply map_lookup_filter_Some in Hk as [_ Hk]. }
    pose proof (sweep_sizes now 5000 range2 (sweep now 5000 range1 (vessels s)).1 Hrange2)
      as Hsize.
    rewrite Hmap in Hsize.
    assert (Hcount : (sweep now 5000 range2 (sweep now 5000 range1 (vessels s)).1).2 = 0)
      by lia.
    by rewrite Hmap, Hcount.
  - unfold cleanupOldVessels. rewrite Hflag. simpl. by rewrite Hflag.
Qed.

(** X8. With the sweeper on, the record of an accepted request stamped
    [stamp] is still in the store after an iteration of the sweeper loop at
    a clock reading [now] with [now - 5000 <= stamp], and it is gone after
    one with [stamp < now - 5000] (where [now - 5000] is an [int64]). *)
Theorem record_lifetime (params : gmap string (list string)) (stamp n now : Z)
    (range range' : Range) (s : State) :
  cleanupEnabled s = true →
  RangeOrder range' →
  Get params "veh_id" ≠ "" →
  Get params "type" ≠ "" →
  int64_range (now - 5000) →
  (now - 5000 <= stamp →
   vessels (run s [SetRequest params stamp n range; SweeperTick now range'])
     !! Get params "veh_id" = Some (telemetry params stamp)) ∧
  (stamp < now - 5000 →
   vessels (run s [SetRequest params stamp n range; SweeperTick now range'])
     !! Get params "veh_id" = None).
Proof.
  intros Hflag Hrange Hid Hty Hnow. simpl.
  rewrite cleanupOldVessels_enabled by (by rewrite step_cleanupEnabled_set).
  simpl. rewrite sweep_map, sub64_exact by done.
  pose proof (setVesselTelemetry_write_stored params stamp s Hid Hty) as Hst.
  split; intros Hcmp.
  - apply map_lookup_filter_Some. split; [done|]. simpl. lia.
  - apply map_lookup_filter_None. right. intros v Hv. simpl.
    rewrite Hst in Hv. simplify_eq. simpl. lia.
Qed.

End Lifetime.

(** ** Responses *)

Section Responses.
Context {lib : GoLib}.

Lemma step_clientInfo (s : State) (e : Event) : clientInfo (step s e) = clientInfo s.
Proof.
  destruct e as [|params stamp now range|now range|now range]; simpl; try done.
  - unfold setVesselTelemetry_write. repeat case_decide; done.
  - unfold cleanupOldVessels. destruct (cleanupEnabled s); simpl; [|done].
    by destruct (sweep _ _ _ _).
Qed.

Lemma run_clientInfo (events : list Event) :
  ∀ s, clientInfo (run s events) = clientInfo s.
Proof.
  induction events as [|e events IH]; intros s; [done|].
  by rewrite run_cons, IH, step_clientInfo.
Qed.

(** X9. Whatever the server has served since [main] drew the identifier,
    [/info] answers with that identifier, in an object with the single field
    [UUID], and leaves the state as it is. *)
Theorem info_identifier_stable (u : list Byte.byte) (events : list Event) :
  infoGetHandler (run (main_init u) events) =
  (run (main_init u) events,
   {| ContentType := "application/json";
      Body := Some {[ "UUID" := JUUID u ]} |}).
Proof.
  unfold infoGetHandler. rewrite run_clientInfo. simpl.
  unfold respond, Encode. rewrite decide_True; [done|].
  by apply map_Forall_singleton.
Qed.

(** X10. While no record of the store holds a NaN or an infinity,
    [getVessels] answers with [errorcode = -1], the records of the store,
    each once, in [vessels], their number in [count] and the clock reading in
    [timestamp], and leaves the state as it is. *)
Theorem getTelemetryData_finite (now : Z) (range : Range) (s : State) :
  RangeOrder range →
  map_Forall (λ _ v, VesselTelemetry_marshalable v = true) (vessels s) →
  ∃ l,
    l ≡ₚ (map_to_list (vessels s)).*2 ∧
    getTelemetryData now range s =
    (s, {| ContentType := "application/json";
           Body := Some (<["errorcode" := JInt (-1)]>
                           (<["vessels" := JVessels l]>
                              (<["count" := JInt (Z.of_nat (size (vessels s)))]>
                                 (<["timestamp" := JInt now]> ∅)))) |}).
Proof.
  intros Hrange Hfinite. exists (vesselsList range (vessels s)).
  destruct (snapshot_fields range (vessels s) now Hrange) as (_ & _ & _ & _ & _ & Hperm & Hlen).
  split; [done|].
  unfold getTelemetryData, respond.
  pose proof (respond_snapshot_finite range (vessels s) now Hrange Hfinite) as Hbody.
  simpl in Hbody. rewrite Hbody. unfold snapshot. by rewrite Hlen.
Qed.

(** X11. An accepted request is answered with the listing of the store as
    it is when the handler takes the read lock, after the events of the gap:
    while that store holds no NaN or infinity, [vessels] holds its records,
    each once, and [count] is its size.  The record of the request is in
    [vessels] when the events of the gap spare it. *)
Theorem setVesselTelemetry_finite (params : gmap string (list string)) (stamp now : Z)
    (range : Range) (gap : list Event) (s : State) :
  RangeOrder range →
  Get params "veh_id" ≠ "" →
  Get params "type" ≠ "" →
  map_Forall (λ _ v, VesselTelemetry_marshalable v = true)
    (vessels (run (setVesselTelemetry_write params stamp s) gap)) →
  ∃ l,
    l ≡ₚ (map_to_list (vessels (run (setVesselTelemetry_write params stamp s) gap))).*2 ∧
    Body (setVesselTelemetry params stamp now range gap s).2 =
    Some (<["errorcode" := JInt (-1)]>
            (<["vessels" := JVessels l]>
               (<["count" := JInt (Z.of_nat
                    (size (vessels (run (setVesselTelemetry_write params stamp s) gap))))]>
                  (<["timestamp" := JInt now]> ∅)))) ∧
    (Forall (spares (Get params "veh_id") stamp) gap → telemetry params stamp ∈ l).
Proof.
  intros Hrange Hid Hty Hfinite.
  set (m' := vessels (run (setVesselTelemetry_write params stamp s) gap)) in *.
  exists (vesselsList range m').
  destruct (snapshot_fields range m' now Hrange) as (_ & _ & _ & _ & _ & Hperm & Hlen).
  split_and!; [done| |].
  - rewrite setVesselTelemetry_accepted by done. simpl.
    rewrite <- (setVesselTelemetry_write_accepted params stamp s) by done. fold m'.
    pose proof (respond_snapshot_finite range m' now Hrange Hfinite) as Hbody.
    simpl in Hbody. rewrite Hbody. unfold snapshot. by rewrite Hlen.
  - intros Hspares. unfold vesselsList. apply list_elem_of_fmap.
    exists (Get params "veh_id", telemetry params stamp). split; [done|].
    apply range_elem_of; [done|]. unfold m'.
    apply run_spares; [by apply setVesselTelemetry_write_stored|done].
Qed.

(** X12. In the record of an accepted request, [ID] is the integer that
    [ParseInt] reads from [veh_id] when it reads one, and the vessel type is
    the code [0], which is none of the four named types, when the scan of
    [type] fails: the request is not refused for it. *)
Theorem id_and_type_parsing (params : gmap string (list string)) (stamp now : Z)
    (range : Range) (gap : list Event) (s : State) :
  Get params "veh_id" ≠ "" →
  Get params "type" ≠ "" →
  vessels (setVesselTelemetry params stamp now range gap s).1 !! Get params "veh_id" =
    Some (telemetry params stamp) ∧
  (∀ n, ParseInt (Get params "veh_id") = Some n → ID (telemetry params stamp) = n) ∧
  (Sscanf_d (Get params "type") = None →
   Type_ (telemetry params stamp) = VesselTypeFromInt32 0 ∧
   Type_ (telemetry params stamp) ∉ [Installation; Vessel; Missile; Air]).
Proof.
  intros Hid Hty. split; [by apply setVesselTelemetry_stored|]. split.
  - intros n Hn. simpl. unfold vehIdInt. by rewrite Hn.
  - intros Hscan. simpl. unfold parseInt32. rewrite Hscan. split; [done|].
    unfold Installation, Vessel, Missile, Air, VesselTypeFromInt32.
    rewrite !not_elem_of_cons. split_and!; try done. apply not_elem_of_nil.
Qed.

End Responses.

(** ** Traces again *)

Section Independence.
Context {lib : GoLib}.

(** X13. The state after a trace is the state after its ticks of the sweeper
    and its accepted requests alone: requests to [/info] and [getVessels] and
    refused requests to [setVesselTelemetry] can be left out. *)
Theorem run_writes_only (events : list Event) (s : State) :
  run s events = run s (filter (λ e, writes e = true) events).
Proof.
  revert s. induction events as [|e events IH]; intros s; [done|].
  rewrite run_cons. destruct (writes e) eqn:Hw.
  - rewrite filter_cons_True by done. by rewrite run_cons, IH.
  - rewrite filter_cons_False by (by rewrite Hw). rewrite step_no_write by done. apply IH.
Qed.

(** X14. Two requests to [setVesselTelemetry] with different [veh_id]
    strings can be served in either order: the state is the same. *)
Theorem upserts_commute (s : State) (p1 p2 : gmap string (list string))
    (t1 n1 t2 n2 : Z) (rg1 rg2 rg1' rg2' : Range) :
  Get p1 "veh_id" ≠ Get p2 "veh_id" →
  run s [SetRequest p1 t1 n1 rg1; SetRequest p2 t2 n2 rg2] =
  run s [SetRequest p2 t2 n2 rg2'; SetRequest p1 t1 n1 rg1'].
Proof.
  intros Hne. simpl.
  rewrite !(λ p t s', setVesselTelemetry_write_state p t 0 map_to_list s'). simpl.
  repeat case_decide; try done.
  unfold set_vessels. simpl. f_equal. by apply insert_insert_ne.
Qed.

(** X15. Along every trace the store grows by no more than one record for
    each accepted request. *)
Theorem store_growth_bounded (events : list Event) (s : State) :
  (size (vessels (run s events)) ≤ size (vessels s) + length (omap upsertKey events))%nat.
Proof.
  revert s. induction events as [|e events IH]; intros s; [simpl; lia|].
  rewrite run_cons. etrans; [apply IH|].
  change (omap upsertKey (e :: events)) with
    (match upsertKey e with
     | Some k => k :: omap upsertKey events
     | None => omap upsertKey events
     end).
  destruct (step_cases s e) as [(k & v & -> & _ & ->)|[[Htick Hsub]|[Hw ->]]].
  - cbn [vessels set_vessels length]. rewrite map_size_insert.
    destruct (vessels s !! k); unfold id; lia.
  - apply map_subseteq_size in Hsub. destruct (upsertKey e); cbn [length]; lia.
  - destruct (upsertKey e); cbn [length]; lia.
Qed.

End Independence.

(** ** Records that stay, bodies that are lost *)

Section Staying.
Context {lib : GoLib}.

(** X16. A record stays in the store, unchanged, along every trace in which
    no accepted request writes under its key and every iteration of the
    sweeper loop comes with a threshold that is not above its timestamp. *)
Theorem record_survives (k : string) (v : VesselTelemetry) (events : list Event) (s : State) :
  vessels s !! k = Some v →
  Forall (spares k (Timestamp v)) events →
  vessels (run s events) !! k = Some v.
Proof.
  intros Hk Hspares. revert s Hk.
  induction Hspares as [|e events He _ IH]; intros s Hk; [done|].
  rewrite run_cons. apply IH. by apply step_spares.
Qed.

Lemma forallb_false_elem {A} (f : A → bool) (l : list A) :
  forallb f l = false → ∃ x, x ∈ l ∧ f x = false.
Proof.
  induction l as [|x l IH]; simpl; [done|].
  destruct (f x) eqn:Hx; simpl.
  - intros Hl. destruct (IH Hl) as [y [Hin Hy]]. exists y. split; [by right|done].
  - intros _. exists x. split; [by left|done].
Qed.

(** X17. [getVessels] answers with an empty body exactly when some record of
    the store holds a NaN or an infinity in one of its eight numbers. *)
Theorem getTelemetryData_body_lost_iff (now : Z) (range : Range) (s : State) :
  RangeOrder range →
  Body (getTelemetryData now range s).2 = None ↔
  ∃ k v, vessels s !! k = Some v ∧ VesselTelemetry_marshalable v = false.
Proof.
  intros Hrange. split.
  - unfold getTelemetryData, respond. simpl. rewrite Encode_snapshot.
    destruct (forallb VesselTelemetry_marshalable (vesselsList range (vessels s)))
      eqn:Hall; [done|].
    intros _. apply forallb_false_elem in Hall as [v [Hin Hv]].
    unfold vesselsList in Hin. apply list_elem_of_fmap in Hin as [[k v'] [-> Hin]].
    exists k, v'. split; [by apply (range_elem_of range)|done].
  - intros (k & v & Hk & Hv). unfold getTelemetryData. simpl.
    by eapply respond_snapshot_lost.
Qed.

(** X18. The record of an accepted request has [HasTgt = false] as soon as
    one of [tgt_x] and [tgt_y] is absent or fails to scan (the library fails
    on the empty string), whatever the other one is. *)
Theorem hasTarget_needs_both (params : gmap string (list string)) (stamp now : Z)
    (range : Range) (gap : list Event) (s : State) :
  Get params "veh_id" ≠ "" →
  Get params "type" ≠ "" →
  Sscanf_f "" = None →
  params !! "tgt_x" = None ∨ Sscanf_f (Get params "tgt_x") = None ∨
  params !! "tgt_y" = None ∨ Sscanf_f (Get params "tgt_y") = None →
  vessels (setVesselTelemetry params stamp now range gap s).1 !! Get params "veh_id" =
    Some (telemetry params stamp) ∧
  HasTgt (telemetry params stamp) = false.
Proof.
  intros Hid Hty Hempty Hmiss. split; [by apply setVesselTelemetry_stored|].
  assert (Hzero : parseFloat (Get params "tgt_x") = float64_zero ∨
                  parseFloat (Get params "tgt_y") = float64_zero).
  { unfold parseFloat. destruct Hmiss as [Hx|[Hx|[Hy|Hy]]].
    - left. by rewrite (Get_absent _ _ Hx), Hempty.
    - left. by rewrite Hx.
    - right. by rewrite (Get_absent _ _ Hy), Hempty.
    - right. by rewrite Hy. }
  simpl. destruct Hzero as [-> | ->]; [done|]. apply andb_false_r.
Qed.

End Staying.

(** ** The further properties on concrete inputs *)

Lemma reachable_store_wellKeyed_witness :
  wellKeyed (lib := sampleLib) "abc" (telemetry (lib := sampleLib) (idQuery "abc" "2") 10000).
Proof.
  apply (reachable_store_wellKeyed (lib := sampleLib)
           (step (lib := sampleLib) (main_init [])
              (SetRequest (idQuery "abc" "2") 10000 10001 map_to_list))
           (reachable_step (main_init [])
              (SetRequest (idQuery "abc" "2") 10000 10001 map_to_list)
              (reachable_init [])) "abc").
  vm_compute. reflexivity.
Defined.

Lemma upserts_accumulate_witness :
  dom (vessels (run (lib := sampleLib) (main_init []) sampleTrace)) =
    dom (vessels (main_init [])) ∪ list_to_set (omap upsertKey sampleTrace) ∧
  size (vessels (run (lib := sampleLib) (main_init []) sampleTrace)) = 2%nat.
Proof.
  destruct (upserts_accumulate (lib := sampleLib) (main_init []) sampleTrace)
    as [Hdom Hsize].
  - unfold sampleTrace. repeat constructor.
  - split; [exact Hdom|]. apply Hsize; [reflexivity|].
    change (NoDup ["abc"; "16"]). apply NoDup_cons. split; [|apply NoDup_singleton].
    rewrite list_elem_of_singleton. discriminate.
Defined.

Lemma setVesselTelemetry_frame_witness :
  vessels (setVesselTelemetry (lib := sampleLib) (idQuery "old" "2") 10000 10001
             map_to_list sampleTrace (MkState (MkClient []) threeVessels true)).1 !! "edge" =
    threeVessels !! "edge" ∧
  (size threeVessels ≤
   size (vessels (setVesselTelemetry (lib := sampleLib) (idQuery "old" "2") 10000 10001
                    map_to_list sampleTrace (MkState (MkClient []) threeVessels true)).1)
   ≤ S (size threeVessels))%nat.
Proof.
  apply (setVesselTelemetry_frame (lib := sampleLib) (idQuery "old" "2") 10000 10001
           map_to_list sampleTrace (MkState (MkClient []) threeVessels true) "edge").
  vm_compute. discriminate.
Defined.

Lemma sweep_conserves_witness :
  (sweep 10000 5000 backwards threeVessels).1 ⊆ threeVessels ∧
  map_Forall (λ _ v, sub64 10000 5000 <= Timestamp v)
    (sweep 10000 5000 backwards threeVessels).1 ∧
  Z.of_nat (size (sweep 10000 5000 backwards threeVessels).1) +
    (sweep 10000 5000 backwards threeVessels).2 = Z.of_nat (size threeVessels).
Proof.
  apply (sweep_conserves 10000 5000 backwards threeVessels).
  exact backwards_RangeOrder.
Defined.

Lemma cleanupOldVessels_order_irrelevant_witness :
  cleanupOldVessels 10000 map_to_list (MkState (MkClient []) threeVessels true) =
  cleanupOldVessels 10000 backwards (MkState (MkClient []) threeVessels true).
Proof.
  apply (cleanupOldVessels_order_irrelevant 10000 map_to_list backwards
           (MkState (MkClient []) threeVessels true)).
  - exact map_to_list_RangeOrder.
  - exact backwards_RangeOrder.
Defined.

Lemma sweep_twice_witness :
  (sweep 10001 5000 backwards (sweep 10000 5000 map_to_list threeVessels).1).1 =
    (sweep 10001 5000 map_to_list threeVessels).1 ∧
  (sweep 10000 5000 map_to_list threeVessels).2 +
    (sweep 10001 5000 backwards (sweep 10000 5000 map_to_list threeVessels).1).2 =
    (sweep 10001 5000 map_to_list threeVessels).2.
Proof.
  apply (sweep_twice 10000 10001 5000 map_to_list backwards map_to_list threeVessels).
  - exact map_to_list_RangeOrder.
  - exact backwards_RangeOrder.
  - exact map_to_list_RangeOrder.
  - vm_compute. discriminate.
Defined.

Example sweep_twice_counts :
  ((sweep 10000 5000 map_to_list threeVessels).2,
   (sweep 10001 5000 backwards (sweep 10000 5000 map_to_list threeVessels).1).2,
   (sweep 10001 5000 map_to_list threeVessels).2) = (1, 1, 2).
Proof. vm_compute. reflexivity. Qed.

Lemma cleanupOldVessels_again_witness :
  cleanupOldVessels 10000 backwards
    (cleanupOldVessels 10000 map_to_list (MkState (MkClient []) threeVessels true)).1 =
  ((cleanupOldVessels 10000 map_to_list (MkState (MkClient []) threeVessels true)).1, []).
Proof.
  apply (cleanupOldVessels_again 10000 map_to_list backwards
           (MkState (MkClient []) threeVessels true)).
  - exact map_to_list_RangeOrder.
  - exact backwards_RangeOrder.
Defined.

Lemma record_lifetime_witness :
  vessels (run (lib := sampleLib) (main_init [])
             [SetRequest (idQuery "42" "2") 10000 10001 map_to_list;
              SweeperTick 15000 backwards]) !! "42" =
    Some (telemetry (lib := sampleLib) (idQuery "42" "2") 10000) ∧
  vessels (run (lib := sampleLib) (main_init [])
             [SetRequest (idQuery "42" "2") 10000 10001 map_to_list;
              SweeperTick 15001 backwards]) !! "42" = None.
Proof.
  split.
  - apply (proj1 (record_lifetime (lib := sampleLib) (idQuery "42" "2") 10000 10001 15000
                    map_to_list backwards (main_init []) eq_refl backwards_RangeOrder
                    ltac:(vm_compute; discriminate) ltac:(vm_compute; discriminate)
                    ltac:(unfold int64_range, min_int64, max_int64; lia))).
    lia.
  - apply (proj2 (record_lifetime (lib := sampleLib) (idQuery "42" "2") 10000 10001 15001
                    map_to_list backwards (main_init []) eq_refl backwards_RangeOrder
                    ltac:(vm_compute; discriminate) ltac:(vm_compute; discriminate)
                    ltac:(unfold int64_range, min_int64, max_int64; lia))).
    lia.
Defined.

Lemma getTelemetryData_finite_witness :
  ∃ l,
    l ≡ₚ (map_to_list threeVessels).*2 ∧
    getTelemetryData 10002 backwards (MkState (MkClient []) threeVessels true) =
    (MkState (MkClient []) threeVessels true,
     {| ContentType := "application/json";
        Body := Some (<["errorcode" := JInt (-1)]>
                        (<["vessels" := JVessels l]>
                           (<["count" := JInt (Z.of_nat (size threeVessels))]>
                              (<["timestamp" := JInt 10002]> ∅)))) |}).
Proof.
  apply (getTelemetryData_finite 10002 backwards (MkState (MkClient []) threeVessels true)).
  - exact backwards_RangeOrder.
  - apply (bool_decide_unpack
             (map_Forall (λ _ v, VesselTelemetry_marshalable v = true) threeVessels)).
    vm_compute. exact I.
Defined.

Lemma setVesselTelemetry_finite_witness :
  ∃ l,
    l ≡ₚ (map_to_list
            (vessels (run (lib := sampleLib)
               (setVesselTelemetry_write (lib := sampleLib) fullQuery 10000
                  (MkState (MkClient []) threeVessels true))
               [SweeperTick 10000 map_to_list]))).*2 ∧
    Body (setVesselTelemetry (lib := sampleLib) fullQuery 10000 10001 backwards
            [SweeperTick 10000 map_to_list]
            (MkState (MkClient []) threeVessels true)).2 =
    Some (<["errorcode" := JInt (-1)]>
            (<["vessels" := JVessels l]>
               (<["count" := JInt (Z.of_nat
                    (size (vessels (run (lib := sampleLib)
                       (setVesselTelemetry_write (lib := sampleLib) fullQuery 10000
                          (MkState (MkClient []) threeVessels true))
                       [SweeperTick 10000 map_to_list]))))]>
                  (<["timestamp" := JInt 10001]> ∅)))) ∧
    (Forall (spares "42" 10000) [SweeperTick 10000 map_to_list] →
     telemetry (lib := sampleLib) fullQuery 10000 ∈ l).
Proof.
  apply (setVesselTelemetry_finite (lib := sampleLib) fullQuery 10000 10001 backwards
           [SweeperTick 10000 map_to_list] (MkState (MkClient []) threeVessels true)).
  - exact backwards_RangeOrder.
  - vm_compute. discriminate.
  - vm_compute. discriminate.
  - apply (bool_decide_unpack
             (map_Forall (λ _ v, VesselTelemetry_marshalable v = true)
                (vessels (run (lib := sampleLib)
                   (setVesselTelemetry_write (lib := sampleLib) fullQuery 10000
                      (MkState (MkClient []) threeVessels true))
                   [SweeperTick 10000 map_to_list])))).
    vm_compute. exact I.
Defined.

(** The response of the request above: the sweeper has taken the record
    under [old] out of the store before the listing. *)
Example set_reply_after_sweep :
  (λ r : Response,
     match Body r with
     | Some body => (body !! "count", body !! "errorcode")
     | None => (None, None)
     end)
    (setVesselTelemetry (lib := sampleLib) fullQuery 10000 10001 backwards
       [SweeperTick 10000 map_to_list]
       (MkState (MkClient []) threeVessels true)).2 =
  (Some (JInt 3), Some (JInt (-1))).
Proof. vm_compute. reflexivity. Qed.

Lemma id_and_type_parsing_witness :
  ID (telemetry (lib := sampleLib) (idQuery "0x10" "boat") 10000) = 16 ∧
  Type_ (telemetry (lib := sampleLib) (idQuery "0x10" "boat") 10000) =
    VesselTypeFromInt32 0.
Proof.
  destruct (id_and_type_parsing (lib := sampleLib) (idQuery "0x10" "boat") 10000 10001
              map_to_list [] (main_init [])) as (_ & Hid & Htype).
  - vm_compute. discriminate.
  - vm_compute. discriminate.
  - split; [apply Hid; reflexivity|]. apply Htype. reflexivity.
Defined.

Lemma upserts_commute_witness :
  run (lib := sampleLib) (main_init [])
    [SetRequest (idQuery "abc" "2") 10000 10001 map_to_list;
     SetRequest (idQuery "16" "2") 10002 10003 backwards] =
  run (lib := sampleLib) (main_init [])
    [SetRequest (idQuery "16" "2") 10002 10003 map_to_list;
     SetRequest (idQuery "abc" "2") 10000 10001 backwards].
Proof.
  apply (upserts_commute (lib := sampleLib) (main_init [])
           (idQuery "abc" "2") (idQuery "16" "2") 10000 10001 10002 10003
           map_to_list backwards backwards map_to_list).
  vm_compute. discriminate.
Defined.

Lemma record_survives_witness :
  vessels (run (lib := sampleLib) (MkState (MkClient []) threeVessels true)
             [SweeperTick 10000 backwards; GetRequest 10000 map_to_list;
              SetRequest (idQuery "old" "2") 10000 10000 map_to_list;
              SweeperTick 10001 map_to_list]) !! "fresh" = Some (stamped 5001).
Proof.
  apply (record_survives (lib := sampleLib) "fresh" (stamped 5001)
           [SweeperTick 10000 backwards; GetRequest 10000 map_to_list;
            SetRequest (idQuery "old" "2") 10000 10000 map_to_list;
            SweeperTick 10001 map_to_list]
           (MkState (MkClient []) threeVessels true)).
  - reflexivity.
  - repeat apply Forall_cons_2; try apply Forall_nil_2; simpl.
    + split; [exact backwards_RangeOrder|].
      unfold int64_range, min_int64, max_int64. lia.
    + exact I.
    + vm_compute. discriminate.
    + split; [exact map_to_list_RangeOrder|].
      unfold int64_range, min_int64, max_int64. lia.
Defined.

Lemma getTelemetryData_body_lost_iff_witness :
  Body (getTelemetryData 10002 backwards
          (step (lib := sampleLib) (main_init [])
             (SetRequest nanQuery 10000 10001 map_to_list))).2 = None.
Proof.
  apply (getTelemetryData_body_lost_iff 10002 backwards
           (step (lib := sampleLib) (main_init [])
              (SetRequest nanQuery 10000 10001 map_to_list))
           backwards_RangeOrder).
  exists "1", (telemetry (lib := sampleLib) nanQuery 10000).
  split; reflexivity.
Defined.

Lemma hasTarget_needs_both_witness :
  vessels (setVesselTelemetry (lib := sampleLib)
             (query [("veh_id", "42"); ("type", "2"); ("tgt_y", "5")])
             10000 10001 map_to_list sampleTrace (main_init [])).1 !! "42" =
    Some (telemetry (lib := sampleLib)
            (query [("veh_id", "42"); ("type", "2"); ("tgt_y", "5")]) 10000) ∧
  HasTgt (telemetry (lib := sampleLib)
            (query [("veh_id", "42"); ("type", "2"); ("tgt_y", "5")]) 10000) = false.
Proof.
  apply (hasTarget_needs_both (lib := sampleLib)
           (query [("veh_id", "42"); ("type", "2"); ("tgt_y", "5")])
           10000 10001 map_to_list sampleTrace (main_init [])).
  - vm_compute. discriminate.
  - vm_compute. discriminate.
  - reflexivity.
  - left. reflexivity.
Defined.
